(** * SDLInputManager: device registry, discretizers and worker loop

    A shallow embedding of [qt/src/SDLInputManager.cpp] and
    [qt/src/SDLInputManager.hpp].

    - C++ [int], [int16_t], [uint8_t], [Uint32] values are integers of [Z];
      where the source relies on a conversion it is written out.
    - Pointers ([SDL_GameController *], [SDL_Joystick *]) are integers of
      [Z], the null pointer being [0].
    - [std::map<SDL_JoystickID, SDLInputDevice>] is a [gmap Z SDLInputDevice];
      iteration from [begin()] to [end()] goes through the entries by
      ascending key.
    - [std::vector] is a [list]; [operator[]] outside the vector is undefined
      behaviour and is reported as such.
    - The SDL library is an environment: what its calls return is an input
      of the model, what the program asks of it is recorded in a trace. *)

From Stdlib Require Import ZArith List Lia Bool.
From stdpp Require Import gmap list sorting strings.

Local Open Scope Z_scope.

(** ** Constants of the SDL headers *)

(** The values of the [SDL_HAT_*] masks come from [SDL_joystick.h], which is
    not part of the repository: they are taken as parameters. *)
Class SDL_joystick_h := {
  SDL_HAT_UP : Z;
  SDL_HAT_RIGHT : Z;
  SDL_HAT_DOWN : Z;
  SDL_HAT_LEFT : Z
}.

(** The masks as SDL2 defines them. *)
Definition SDL2_joystick_h : SDL_joystick_h :=
  {| SDL_HAT_UP := 1; SDL_HAT_RIGHT := 2; SDL_HAT_DOWN := 4; SDL_HAT_LEFT := 8 |}.

Definition nullptr : Z := 0.

(** ** SDLInputManager.hpp: the data *)

(** [SDLInputDevice::Axis] *)
Record Axis := mkAxis {
  initial : Z;   (* int16_t *)
  last : Z       (* int *)
}.

(** [SDLInputDevice::Hat] *)
Record Hat := mkHat {
  state : Z      (* uint8_t *)
}.

Record SDLInputDevice := mkDevice {
  index : Z;
  sdl_joystick_number : Z;
  is_controller : bool;
  controller : Z;
  joystick : Z;
  instance_id : Z;
  axes : list Axis;
  hats : list Hat;
  buttons : list bool
}.

Abbreviation devices_t := (gmap Z SDLInputDevice).

(** [SDLInputManager::DiscreteAxisEvent] *)
Record DiscreteAxisEvent := mkDAE {
  dae_joystick_num : Z;
  dae_axis : Z;
  dae_direction : Z;
  dae_pressed : Z
}.

(** [SDLInputManager::DiscreteHatEvent] *)
Record DiscreteHatEvent := mkDHE {
  dhe_joystick_num : Z;
  dhe_hat : Z;
  dhe_direction : Z;
  dhe_pressed : bool
}.

(** The members [jhat] and [jaxis] of the [SDL_Event] union. *)
Record SDL_JoyHatEvent := mkJHat {
  jhat_which : Z;   (* SDL_JoystickID *)
  jhat_hat : Z;     (* Uint8 *)
  jhat_value : Z    (* Uint8 *)
}.

Record SDL_JoyAxisEvent := mkJAxis {
  jaxis_which : Z;  (* SDL_JoystickID *)
  jaxis_axis : Z;   (* Uint8 *)
  jaxis_value : Z   (* Sint16 *)
}.

(** ** How a member function ends *)

Inductive exn := out_of_range.

(** A call on the manager returns a value, or leaves by a C++ exception, both
    with the registry as the call left it, or has no defined behaviour. *)
Inductive outcome (A : Type) :=
| Returns (a : A) (devices : devices_t)
| Throws (e : exn) (devices : devices_t)
| Undefined.
Arguments Returns {A} a devices.
Arguments Throws {A} e devices.
Arguments Undefined {A}.

(** [v[i]] on a [std::vector], [i] of an unsigned or signed integer type. *)
Definition vector_at {A} (v : list A) (i : Z) : option A :=
  if i <? 0 then None else v !! Z.to_nat i.

(** [v[i] = x]: the caller has checked [vector_at v i]. *)
Definition vector_set {A} (v : list A) (i : Z) (x : A) : list A :=
  <[Z.to_nat i := x]> v.

(** ** SDLInputManager::DiscretizeHatEvent *)

Section Hat.
Context `{SDL_joystick_h}.

(** The initializer list the [for] statement goes through. *)
Definition hat_directions : list Z :=
  [SDL_HAT_UP; SDL_HAT_DOWN; SDL_HAT_LEFT; SDL_HAT_RIGHT].

(** The body of the range-[for]: the first mask [s] on which the two states
    differ gives [direction = s] and [pressed = (new_state & s)], converted
    to [bool]. *)
Fixpoint hat_scan (dirs : list Z) (old_state new_state : Z) : option (Z * bool) :=
  match dirs with
  | [] => None
  | s :: dirs' =>
      if negb (Z.land old_state s =? Z.land new_state s)
      then Some (s, negb (Z.land new_state s =? 0))
      else hat_scan dirs' old_state new_state
  end.

(** The device after [old_state = new_state] through the reference
    [device.hats[hat].state]. *)
Definition store_hat (device : SDLInputDevice) (hat new_state : Z) : SDLInputDevice :=
  mkDevice (index device) (sdl_joystick_number device) (is_controller device)
           (controller device) (joystick device) (instance_id device)
           (axes device) (vector_set (hats device) hat (mkHat new_state))
           (buttons device).

Definition DiscretizeHatEvent (devices : devices_t) (event : SDL_JoyHatEvent)
  : outcome (option DiscreteHatEvent) :=
  match devices !! jhat_which event with
  | None => Throws out_of_range devices            (* devices.at(...) *)
  | Some device =>
      let hat := jhat_hat event in
      let new_state := jhat_value event in
      match vector_at (hats device) hat with
      | None => Undefined
      | Some h =>
          let old_state := state h in
          if old_state =? new_state then Returns None devices
          else
            match hat_scan hat_directions old_state new_state with
            | Some (s, p) =>
                Returns (Some (mkDHE (index device) hat s p))
                        (<[jhat_which event := store_hat device hat new_state]> devices)
            | None => Returns None devices
            end
      end
  end.

End Hat.

(** ** SDLInputManager::DiscretizeJoyAxisEvent *)

(** The lambda [pressed], with the captured [center]. The division is the
    one of C++ on [int], which truncates. *)
Definition pressed (center : Z) (axis : Z) : Z :=
  if axis >? center + (32767 - center) ÷ 3 then 1
  else if axis <? center - (center + 32768) ÷ 3 then -1
  else 0.

(** The device after [then = now] through the reference
    [device.axes[axis].last]. *)
Definition store_axis (device : SDLInputDevice) (axis now : Z) (a : Axis) : SDLInputDevice :=
  mkDevice (index device) (sdl_joystick_number device) (is_controller device)
           (controller device) (joystick device) (instance_id device)
           (vector_set (axes device) axis (mkAxis (initial a) now))
           (hats device) (buttons device).

Definition DiscretizeJoyAxisEvent (devices : devices_t) (event : SDL_JoyAxisEvent)
  : outcome (option DiscreteAxisEvent) :=
  match devices !! jaxis_which event with
  | None => Throws out_of_range devices            (* devices.at(...) *)
  | Some device =>
      let axis := jaxis_axis event in
      let now := jaxis_value event in
      match vector_at (axes device) axis with
      | None => Undefined
      | Some a =>
          let then_ := last a in
          let center := initial a in
          let was_pressed_then := pressed center then_ in
          let is_pressed_now := pressed center now in
          let devices' := <[jaxis_which event := store_axis device axis now a]> devices in
          if was_pressed_then =? is_pressed_now then Returns None devices'
          else
            Returns (Some (mkDAE (index device) axis
                                 (if is_pressed_now =? 0 then was_pressed_then
                                  else is_pressed_now)
                                 (if is_pressed_now =? 0 then 0 else 1)))
                    devices'
      end
  end.

(** ** The SDL library as the program sees it *)

(** What the SDL calls of [SDLInputDevice::open] answer. A handle is [nullptr]
    when the call failed. The counts are those of an open joystick, for
    which SDL reports no negative number. [SDL_JoystickGetAxisInitialState]
    answers [None] for [SDL_FALSE], in which case it writes nothing. *)
Record SDL_library := mkSDL {
  SDL_IsGameController : Z -> bool;
  SDL_GameControllerOpen : Z -> Z;
  SDL_GameControllerGetJoystick : Z -> Z;
  SDL_JoystickOpen : Z -> Z;
  SDL_JoystickNumAxes : Z -> nat;
  SDL_JoystickGetAxisInitialState : Z -> nat -> option Z;
  SDL_JoystickNumButtons : Z -> nat;
  SDL_JoystickNumHats : Z -> nat;
  SDL_JoystickInstanceID : Z -> Z
}.

(** [SDL_Event] by its [type], with the members [run] and the discretizers
    read. [SDL_other] stands for every type that has no [case] label in
    [run], the registered user events among them. *)
Inductive SDL_Event :=
| SDL_JOYAXISMOTION (jaxis : SDL_JoyAxisEvent)
| SDL_JOYHATMOTION (jhat : SDL_JoyHatEvent)
| SDL_JOYBUTTONUP (which button : Z)
| SDL_JOYBUTTONDOWN (which button : Z)
| SDL_JOYDEVICEADDED (which : Z)
| SDL_JOYDEVICEREMOVED (which : Z)
| SDL_QUIT
| SDL_other (type : Z).

(** What the program asks of SDL, of Qt and of the condition variable, in
    the order in which it does. [emit_event e n] is [emit event(e, n)]. *)
Inductive call :=
| SDL_Init
| SDL_Quit
| SDL_WaitEvent
| SDL_WaitEventTimeout (timeout : Z)
| emit_event (e : SDL_Event) (n : Z)
| SDL_GameControllerClose (c : Z)
| SDL_JoystickClose (j : Z)
| SDL_GameControllerRumble (c low_freq high_freq duration_ms : Z)
| cv_notify_one.

(** ** The registry *)

(** The entries of the map from [begin()] to [end()]. *)
Definition key_le (x y : Z * SDLInputDevice) : Prop := x.1 <= y.1.

#[global] Instance key_le_dec : RelDecision key_le := fun x y => Z_le_dec x.1 y.1.

Definition begin_end (devices : devices_t) : list (Z * SDLInputDevice) :=
  merge_sort key_le (map_to_list devices).

(** [std::none_of(devices.begin(), devices.end(), p)] *)
Definition none_of (devices : devices_t) (p : Z * SDLInputDevice -> bool) : bool :=
  forallb (fun d => negb (p d)) (begin_end devices).

(** [std::map::insert]: an entry whose key is in the map stays as it is. *)
Definition map_insert_new (k : Z) (d : SDLInputDevice) (devices : devices_t) : devices_t :=
  match devices !! k with
  | Some _ => devices
  | None => <[k := d]> devices
  end.

(** An [SDLInputDevice] that is value-initialized, as [operator[]] of the
    map makes one for a key it does not hold: scalars are zero, vectors
    empty. The local [SDLInputDevice d;] of [AddDevice] starts as this one
    too: what it leaves indeterminate is written before it is read. *)
Definition SDLInputDevice_init : SDLInputDevice :=
  mkDevice 0 0 false nullptr nullptr 0 [] [] [].

(** The loop of [FindFirstOpenIndex] from the value [i] of its counter,
    for at most [fuel] iterations. *)
Fixpoint FindFirstOpenIndex_from (fuel : nat) (devices : devices_t) (i : Z) : option Z :=
  match fuel with
  | O => None
  | S fuel' =>
      if none_of devices (fun d => index d.2 =? i) then Some i
      else FindFirstOpenIndex_from fuel' devices (i + 1)
  end.

(** [SDLInputManager::FindFirstOpenIndex]. One iteration more than there
    are devices is enough for the loop to return, and more iterations do
    not change what it returns ([FindFirstOpenIndex_from_enough] below), so
    that the [-1] here stands for nothing the loop does. *)
Definition FindFirstOpenIndex (devices : devices_t) : Z :=
  default (-1) (FindFirstOpenIndex_from (S (size devices)) devices 0).

(** The loop of [open] over the axes: [axes[i].initial] is what SDL wrote,
    or the zero of [resize], and [axes[i].last = axes[i].initial]. *)
Definition open_axes (sdl : SDL_library) (joystick : Z) : list Axis :=
  map (fun i =>
         let initial := default 0 (SDL_JoystickGetAxisInitialState sdl joystick i) in
         mkAxis initial initial)
      (seq 0 (SDL_JoystickNumAxes sdl joystick)).

(** [SDLInputDevice::open]: the returned [bool] and the device after the
    call. *)
Definition open (sdl : SDL_library) (this : SDLInputDevice) (joystick_num : Z)
  : bool * SDLInputDevice :=
  let is_controller := SDL_IsGameController sdl joystick_num in
  let controller :=
    if is_controller then SDL_GameControllerOpen sdl joystick_num else nullptr in
  let joystick :=
    if is_controller then SDL_GameControllerGetJoystick sdl controller
    else SDL_JoystickOpen sdl joystick_num in
  if joystick =? nullptr then
    (false, mkDevice (index this) joystick_num is_controller controller joystick
                     (instance_id this) (axes this) (hats this) (buttons this))
  else
    (true, mkDevice (index this) joystick_num is_controller controller joystick
                    (SDL_JoystickInstanceID sdl joystick)
                    (open_axes sdl joystick)
                    (repeat (mkHat 0) (SDL_JoystickNumHats sdl joystick))
                    (repeat false (SDL_JoystickNumButtons sdl joystick))).

(** [d.index = i] *)
Definition set_index (d : SDLInputDevice) (i : Z) : SDLInputDevice :=
  mkDevice i (sdl_joystick_number d) (is_controller d) (controller d)
           (joystick d) (instance_id d) (axes d) (hats d) (buttons d).

(** [SDLInputManager::AddDevice] *)
Definition AddDevice (sdl : SDL_library) (devices : devices_t) (device_index : Z)
  : devices_t :=
  let (opened, d) := open sdl SDLInputDevice_init device_index in
  if negb opened then devices
  else
    let d := set_index d (FindFirstOpenIndex devices) in
    map_insert_new (instance_id d) d devices.

(** [SDLInputManager::RemoveDevice]: the registry after the call and the
    calls made. *)
Definition RemoveDevice (devices : devices_t) (instance_id : Z)
  : devices_t * list call :=
  match devices !! instance_id with
  | None => (devices, [])
  | Some d =>
      (delete instance_id devices,
       [if is_controller d then SDL_GameControllerClose (controller d)
        else SDL_JoystickClose (joystick d)])
  end.

(** A sequence of attach and detach operations on the registry. *)
Inductive registry_op :=
| op_AddDevice (sdl : SDL_library) (device_index : Z)
| op_RemoveDevice (instance_id : Z).

Definition apply_op (devices : devices_t) (o : registry_op) : devices_t :=
  match o with
  | op_AddDevice sdl device_index => AddDevice sdl devices device_index
  | op_RemoveDevice instance_id => (RemoveDevice devices instance_id).1
  end.

Definition apply_ops (ops : list registry_op) (devices : devices_t) : devices_t :=
  fold_left apply_op ops devices.

(** ** SDLInputManager::run *)

(** [devices[k]]: [operator[]] of the map, which adds a value-initialized
    entry for a key it does not hold. *)
Definition map_subscript (devices : devices_t) (k : Z) : devices_t * SDLInputDevice :=
  match devices !! k with
  | Some d => (devices, d)
  | None => (<[k := SDLInputDevice_init]> devices, SDLInputDevice_init)
  end.

(** Conversions of a value to [Uint32] and to [int]. *)
Definition to_Uint32 (z : Z) : Z := z mod 2 ^ 32.
Definition to_int (z : Z) : Z := (z + 2 ^ 31) mod 2 ^ 32 - 2 ^ 31.

(** The registry and the locals of [run]. *)
Record worker := mkWorker {
  w_devices : devices_t;
  w_run : bool;
  w_e : SDL_Event;
  w_rumble_end : option Z
}.

(** What one iteration of the loop finds around it: the event the wait
    delivered ([None] when the wait returned 0, which for
    [SDL_WaitEventTimeout] is the time-out; [e] is then not written), the
    clock, the SDL library, and the members other threads set:
    [rumble_data] and [on_thread]. *)
Record surroundings := mkSurroundings {
  waited : option SDL_Event;
  SDL_GetTicks : Z;
  sdl : SDL_library;
  rumble_data : Z * Z * Z;
  on_thread : option (devices_t -> devices_t)
}.

(** [for (const auto [id, dev] : devices)
       SDL_GameControllerRumble(dev.controller, low, high, duration);] *)
Definition rumble_all (devices : devices_t) (low_freq high_freq duration_ms : Z)
  : list call :=
  map (fun d => SDL_GameControllerRumble (controller d.2) low_freq high_freq duration_ms)
      (begin_end devices).

(** The wait at the head of the loop body. *)
Definition wait_phase (s : surroundings) (w : worker) : worker * list call :=
  match w_rumble_end w with
  | Some rumble_end =>
      let timeout := Z.max (to_int (to_Uint32 (rumble_end - SDL_GetTicks s))) 0 in
      match waited s with
      | Some ev =>
          (mkWorker (w_devices w) (w_run w) ev (w_rumble_end w),
           [SDL_WaitEventTimeout timeout])
      | None =>
          (mkWorker (w_devices w) (w_run w) (w_e w) None,
           SDL_WaitEventTimeout timeout :: rumble_all (w_devices w) 0 0 0)
      end
  | None =>
      match waited s with
      | Some ev => (mkWorker (w_devices w) (w_run w) ev None, [SDL_WaitEvent])
      | None => (w, [SDL_WaitEvent])
      end
  end.

(** The [switch (e.type)]. *)
Definition dispatch (work_event_id rumble_event_id : Z) (s : surroundings) (w : worker)
  : worker * list call :=
  let e := w_e w in
  match e with
  | SDL_JOYAXISMOTION _ | SDL_JOYHATMOTION _ => (w, [emit_event e 0])
  | SDL_JOYBUTTONUP which _ | SDL_JOYBUTTONDOWN which _ =>
      let (devices, d) := map_subscript (w_devices w) which in
      (mkWorker devices (w_run w) e (w_rumble_end w), [emit_event e (index d)])
  | SDL_JOYDEVICEADDED which =>
      (mkWorker (AddDevice (sdl s) (w_devices w) which) (w_run w) e (w_rumble_end w),
       [emit_event e 0])
  | SDL_JOYDEVICEREMOVED which =>
      let (devices, calls) := RemoveDevice (w_devices w) which in
      (mkWorker devices (w_run w) e (w_rumble_end w), calls ++ [emit_event e 0])
  | SDL_QUIT => (mkWorker (w_devices w) false e (w_rumble_end w), [])
  | SDL_other type =>
      if type =? work_event_id then
        (mkWorker (match on_thread s with
                   | Some f => f (w_devices w)
                   | None => w_devices w
                   end) (w_run w) e (w_rumble_end w),
         [cv_notify_one])
      else if type =? rumble_event_id then
        let '(low_freq, high_freq, duration_ms) := rumble_data s in
        (mkWorker (w_devices w) (w_run w) e
                  (Some (to_int (to_Uint32 (SDL_GetTicks s + duration_ms)))),
         rumble_all (w_devices w) low_freq high_freq duration_ms)
      else (w, [])
  end.

(** The body of [while (run)]. *)
Definition loop_body (work_event_id rumble_event_id : Z) (s : surroundings) (w : worker)
  : worker * list call :=
  let (w1, calls1) := wait_phase s w in
  let (w2, calls2) := dispatch work_event_id rumble_event_id s w1 in
  (w2, calls1 ++ calls2).

(** [while (run)] for as long as there are surroundings to wait in. *)
Fixpoint while_run (work_event_id rumble_event_id : Z) (ss : list surroundings)
  (w : worker) : worker * list call :=
  match ss with
  | [] => (w, [])
  | s :: ss' =>
      if w_run w then
        let (w1, calls1) := loop_body work_event_id rumble_event_id s w in
        let (w2, calls2) := while_run work_event_id rumble_event_id ss' w1 in
        (w2, calls1 ++ calls2)
      else (w, [])
  end.

(** [SDLInputManager::run]: [SDL_Quit()] is reached once the loop is left;
    when the surroundings run out before that, the worker is in its wait. *)
Definition run (work_event_id rumble_event_id : Z) (devices : devices_t)
  (ss : list surroundings) : worker * list call :=
  let (w, calls) :=
    while_run work_event_id rumble_event_id ss
              (mkWorker devices true (SDL_other 0) None) in
  (w, SDL_Init :: calls ++ (if w_run w then [] else [SDL_Quit])).

(** ** Slots of the registry *)

(** Slot [i] is claimed: an entry of the registry has it as its [index]. *)
Definition claimed (devices : devices_t) (i : Z) : Prop :=
  exists k d, devices !! k = Some d /\ index d = i.

(** No two entries of the registry have the same [index]. *)
Definition slots_unique (devices : devices_t) : Prop :=
  forall k1 k2 d1 d2,
    devices !! k1 = Some d1 -> devices !! k2 = Some d2 ->
    index d1 = index d2 -> k1 = k2.

(** ** A caller of the axis discretizer *)

(** The samples of one axis of one device, handed to
    [DiscretizeJoyAxisEvent] one after the other: what each call returned.
    The list stops at a call that does not return. *)
Fixpoint axis_samples (devices : devices_t) (which axis : Z) (samples : list Z)
  : list (option DiscreteAxisEvent) :=
  match samples with
  | [] => []
  | now :: samples' =>
      match DiscretizeJoyAxisEvent devices (mkJAxis which axis now) with
      | Returns ev devices' => ev :: axis_samples devices' which axis samples'
      | _ => []
      end
  end.

(** ** Concrete devices and surroundings *)

(** A joystick in slot 0 under the instance id 5, with one hat at rest and
    one axis at rest in 0. *)
Definition stick5 : SDLInputDevice :=
  mkDevice 0 0 false nullptr 77 5 [mkAxis 0 0] [mkHat 0] [false; false].

(** An SDL library in which every device index opens the same device:
    a game controller or a plain joystick, with the given handle, instance
    id and numbers of axes, hats and buttons, all axes at rest in 0. *)
Definition plugged (is_controller : bool) (handle instance_id : Z)
  (num_axes num_hats num_buttons : nat) : SDL_library :=
  mkSDL (fun _ => is_controller)
        (fun _ => handle + 1000)
        (fun c => if c =? nullptr then nullptr else handle)
        (fun _ => handle)
        (fun _ => num_axes)
        (fun _ _ => Some 0)
        (fun _ => num_buttons)
        (fun _ => num_hats)
        (fun _ => instance_id).

(** An SDL library in which nothing opens. *)
Definition unplugged : SDL_library :=
  mkSDL (fun _ => false) (fun _ => nullptr) (fun _ => nullptr) (fun _ => nullptr)
        (fun _ => O) (fun _ _ => None) (fun _ => O) (fun _ => O) (fun _ => 0).

(** Device A of the scenario: 4 axes, 1 hat, 2 buttons. *)
Definition sdl_A : SDL_library := plugged false 101 10 4 1 2.
Definition sdl_B : SDL_library := plugged true 102 11 6 0 15.
Definition sdl_C : SDL_library := plugged false 103 12 2 1 4.

(** A game controller in slot 0 under the instance id 7. *)
Definition pad7 : SDLInputDevice :=
  mkDevice 0 0 true 900 901 7 [mkAxis 0 0] [] [false].

(** The ids [SDL_RegisterEvents] gave the manager. *)
Definition work_id : Z := 32768.
Definition rumble_id : Z := 32769.

(** The wait delivers [ev] at the tick [t]. *)
Definition delivers (ev : SDL_Event) (t : Z) : surroundings :=
  mkSurroundings (Some ev) t unplugged (1000, 2000, 50) None.

(** The wait returns 0 at the tick [t]. *)
Definition times_out (t : Z) : surroundings :=
  mkSurroundings None t unplugged (1000, 2000, 50) None.

(** ** SDLInputManager::getXInputControllers *)

(** The loop over the entries: a plain joystick is passed over, a game
    controller gives the pair of its key and of the name SDL has for its
    joystick handle. [SDL_JoystickName] is the answer of the SDL library;
    the [bind] the loop asks for is not used. *)
Fixpoint getXInputControllers_from (SDL_JoystickName : Z -> string)
  (ds : list (Z * SDLInputDevice)) : list (Z * string) :=
  match ds with
  | [] => []
  | d :: ds' =>
      if negb (is_controller d.2) then getXInputControllers_from SDL_JoystickName ds'
      else (d.1, SDL_JoystickName (joystick d.2))
             :: getXInputControllers_from SDL_JoystickName ds'
  end.

Definition getXInputControllers (SDL_JoystickName : Z -> string)
  (devices : devices_t) : list (Z * string) :=
  getXInputControllers_from SDL_JoystickName (begin_end devices).

(** ** Entries as the registry operations make them *)

(** An entry [k -> d] as [AddDevice] inserts it: the key is the instance
    id, the joystick handle is not null, the slot is not negative, and a
    plain joystick has no controller handle. *)
Definition entry_ok (k : Z) (d : SDLInputDevice) : Prop :=
  instance_id d = k /\ joystick d <> nullptr /\ 0 <= index d /\
  (is_controller d = false -> controller d = nullptr).

Definition registry_ok (devices : devices_t) : Prop :=
  forall k d, devices !! k = Some d -> entry_ok k d.

(** The sequence holds calls of [AddDevice] only. *)
Definition only_AddDevice (ops : list registry_op) : Prop :=
  forall o, In o ops -> exists sdl n, o = op_AddDevice sdl n.

(** A name for each joystick handle. *)
Definition handle_name (j : Z) : string :=
  if j =? 901 then "pad"%string else "stick"%string.

(** ** Kinds of events and of calls *)

(** The events of a joystick, which [run] hands on with [emit event]. *)
Definition joystick_event (ev : SDL_Event) : bool :=
  match ev with
  | SDL_QUIT | SDL_other _ => false
  | _ => true
  end.

(** The calls that close a handle. *)
Definition closes_handle (c : call) : bool :=
  match c with
  | SDL_GameControllerClose _ | SDL_JoystickClose _ => true
  | _ => false
  end.

(** The calls of [SDL_GameControllerRumble]. *)
Definition rumbles (c : call) : bool :=
  match c with
  | SDL_GameControllerRumble _ _ _ _ => true
  | _ => false
  end.

(** The calls of [emit event]. *)
Definition emits (c : call) : bool :=
  match c with
  | emit_event _ _ => true
  | _ => false
  end.

(** * Properties *)

(** ** Hat discretization *)

Section HatProperties.
Context `{SDL_joystick_h}.

Lemma hat_scan_first (pre post : list Z) (s old_state new_state : Z) :
  (forall t, In t pre -> Z.land old_state t = Z.land new_state t) ->
  Z.land old_state s <> Z.land new_state s ->
  hat_scan (pre ++ s :: post) old_state new_state
  = Some (s, bool_decide (Z.land new_state s <> 0)).
Proof.
  intros Hpre Hs. induction pre as [|t pre IH]; simpl.
  - apply Z.eqb_neq in Hs. rewrite Hs. simpl. do 2 f_equal.
    destruct (Z.eqb_spec (Z.land new_state s) 0) as [E|E].
    + rewrite bool_decide_eq_false_2; auto.
    + rewrite bool_decide_eq_true_2; auto.
  - rewrite (Hpre t (or_introl eq_refl)), Z.eqb_refl. simpl.
    apply IH. intros u Hu. apply Hpre. now right.
Qed.

Lemma hat_scan_none (dirs : list Z) (old_state new_state : Z) :
  (forall t, In t dirs -> Z.land old_state t = Z.land new_state t) ->
  hat_scan dirs old_state new_state = None.
Proof.
  induction dirs as [|t dirs IH]; intros Hall; simpl; [reflexivity|].
  rewrite (Hall t (or_introl eq_refl)), Z.eqb_refl. simpl.
  apply IH. intros u Hu. apply Hall. now right.
Qed.

Lemma store_hat_state (device : SDLInputDevice) (hat new_state : Z) (h : Hat) :
  vector_at (hats device) hat = Some h ->
  vector_at (hats (store_hat device hat new_state)) hat = Some (mkHat new_state).
Proof.
  unfold vector_at, store_hat, vector_set. simpl.
  destruct (hat <? 0); [discriminate|]. intros Hh.
  apply list_lookup_insert_eq. eapply lookup_lt_Some. exact Hh.
Qed.

(** C1. On a device of the registry and one of its hats, whose stored state
    is [old_bits = state h], a sample [new_bits = jhat_value event]:
    - equal to [old_bits], gives no event and leaves the registry as it is;
    - otherwise, the first mask [s] of the scan order Up, Down, Left, Right
      on which old and new bits differ gives the one event
      [{direction = s, pressed = (new_bits & s) != 0}] of that hat and of
      the slot of the device, and the stored state becomes [new_bits];
      the masks after [s] play no part. *)
Theorem C1_hat_discretization
  (devices : devices_t) (event : SDL_JoyHatEvent) (device : SDLInputDevice) (h : Hat) :
  devices !! jhat_which event = Some device ->
  vector_at (hats device) (jhat_hat event) = Some h ->
  let old_bits := state h in
  let new_bits := jhat_value event in
  hat_directions = [SDL_HAT_UP; SDL_HAT_DOWN; SDL_HAT_LEFT; SDL_HAT_RIGHT] /\
  (old_bits = new_bits -> DiscretizeHatEvent devices event = Returns None devices) /\
  (forall (pre post : list Z) (s : Z),
      hat_directions = pre ++ s :: post ->
      (forall t, In t pre -> Z.land old_bits t = Z.land new_bits t) ->
      Z.land old_bits s <> Z.land new_bits s ->
      DiscretizeHatEvent devices event
      = Returns (Some (mkDHE (index device) (jhat_hat event) s
                             (bool_decide (Z.land new_bits s <> 0))))
                (<[jhat_which event := store_hat device (jhat_hat event) new_bits]> devices)
      /\ vector_at (hats (store_hat device (jhat_hat event) new_bits)) (jhat_hat event)
         = Some (mkHat new_bits)).
Proof.
  intros Hdev Hhat old_bits new_bits. split; [reflexivity|]. split.
  - intros Heq. unfold DiscretizeHatEvent. rewrite Hdev, Hhat.
    fold old_bits new_bits. rewrite Heq, Z.eqb_refl. reflexivity.
  - intros pre post s Hdirs Hpre Hs. split.
    + unfold DiscretizeHatEvent. rewrite Hdev, Hhat. fold old_bits new_bits.
      assert (Hne : old_bits <> new_bits) by (intros E; apply Hs; now rewrite E).
      apply Z.eqb_neq in Hne. rewrite Hne.
      rewrite Hdirs, (hat_scan_first pre post s old_bits new_bits Hpre Hs).
      reflexivity.
    + eapply store_hat_state. exact Hhat.
Qed.

(** C9. When the sample differs from the stored state of the hat, but on
    none of the four direction masks, there is no event and the registry,
    with it the stored state of the hat, stays as it is. *)
Theorem C9_hat_other_bits
  (devices : devices_t) (event : SDL_JoyHatEvent) (device : SDLInputDevice) (h : Hat) :
  devices !! jhat_which event = Some device ->
  vector_at (hats device) (jhat_hat event) = Some h ->
  state h <> jhat_value event ->
  (forall s, In s [SDL_HAT_UP; SDL_HAT_DOWN; SDL_HAT_LEFT; SDL_HAT_RIGHT] ->
             Z.land (state h) s = Z.land (jhat_value event) s) ->
  DiscretizeHatEvent devices event = Returns None devices.
Proof.
  intros Hdev Hhat Hne Hsame.
  unfold DiscretizeHatEvent. rewrite Hdev, Hhat.
  apply Z.eqb_neq in Hne. rewrite Hne.
  rewrite (hat_scan_none hat_directions _ _ Hsame). reflexivity.
Qed.

(** The same sample a second time gives no event. *)
Lemma hat_repeated_sample (devices devices' : devices_t) (event : SDL_JoyHatEvent)
  (ev : DiscreteHatEvent) :
  DiscretizeHatEvent devices event = Returns (Some ev) devices' ->
  DiscretizeHatEvent devices' event = Returns None devices'.
Proof.
  unfold DiscretizeHatEvent.
  destruct (devices !! jhat_which event) as [device|] eqn:Hdev; [|discriminate].
  destruct (vector_at (hats device) (jhat_hat event)) as [h|] eqn:Hhat; [|discriminate].
  destruct (state h =? jhat_value event); [discriminate|].
  destruct (hat_scan hat_directions (state h) (jhat_value event)) as [[s p]|];
    [|discriminate].
  intros Hret. injection Hret as _ <-.
  rewrite lookup_insert_eq.
  rewrite (store_hat_state device (jhat_hat event) (jhat_value event) h Hhat).
  simpl. rewrite Z.eqb_refl. reflexivity.
Qed.

End HatProperties.

Lemma C1_hat_discretization_witness :
  DiscretizeHatEvent (H := SDL2_joystick_h) {[5 := stick5]} (mkJHat 5 0 9)
  = Returns (Some (mkDHE 0 0 1 true)) (<[5 := store_hat stick5 0 9]> {[5 := stick5]}).
Proof.
  assert (Hdev : ({[5 := stick5]} : devices_t) !! 5 = Some stick5) by reflexivity.
  assert (Hhat : vector_at (hats stick5) 0 = Some (mkHat 0)) by reflexivity.
  destruct (C1_hat_discretization (H := SDL2_joystick_h)
              {[5 := stick5]} (mkJHat 5 0 9) stick5 (mkHat 0) Hdev Hhat)
    as (_ & _ & Hscan).
  destruct (Hscan [] [4; 8; 2] 1 eq_refl) as [Hevent _].
  - intros t [].
  - vm_compute. discriminate.
  - exact Hevent.
Defined.

Lemma C9_hat_other_bits_witness :
  DiscretizeHatEvent (H := SDL2_joystick_h) {[5 := stick5]} (mkJHat 5 0 16)
  = Returns None {[5 := stick5]}.
Proof.
  assert (Hdev : ({[5 := stick5]} : devices_t) !! 5 = Some stick5) by reflexivity.
  assert (Hhat : vector_at (hats stick5) 0 = Some (mkHat 0)) by reflexivity.
  apply (C9_hat_other_bits (H := SDL2_joystick_h)
           {[5 := stick5]} (mkJHat 5 0 16) stick5 (mkHat 0) Hdev Hhat).
  - vm_compute. discriminate.
  - intros s Hs. simpl in Hs.
    destruct Hs as [<-|[<-|[<-|[<-|[]]]]]; reflexivity.
Defined.

(** ** Axis discretization *)

(** For a [center] of [int16_t] the two quotients are of non-negative
    numbers, so that the truncating division is the division that rounds
    down, and all the values [pressed] computes are far inside [int]. *)
Lemma pressed_thresholds (center : Z) :
  -32768 <= center <= 32767 ->
  (32767 - center) ÷ 3 = (32767 - center) / 3 /\
  (center + 32768) ÷ 3 = (center + 32768) / 3 /\
  center <= center + (32767 - center) ÷ 3 <= 32767 /\
  -32768 <= center - (center + 32768) ÷ 3 <= center.
Proof.
  intros Hc.
  rewrite (Z.quot_div_nonneg (32767 - center) 3) by lia.
  rewrite (Z.quot_div_nonneg (center + 32768) 3) by lia.
  repeat split; try reflexivity.
  all: try (pose proof (Z.div_pos (32767 - center) 3); lia).
  all: try (pose proof (Z.div_pos (center + 32768) 3); lia).
  all: Z.to_euclidean_division_equations; lia.
Qed.

Lemma store_axis_last (device : SDLInputDevice) (axis now : Z) (a : Axis) :
  vector_at (axes device) axis = Some a ->
  vector_at (axes (store_axis device axis now a)) axis = Some (mkAxis (initial a) now).
Proof.
  unfold vector_at, store_axis, vector_set. simpl.
  destruct (axis <? 0); [discriminate|]. intros Ha.
  apply list_lookup_insert_eq. eapply lookup_lt_Some. exact Ha.
Qed.

(** C2. On a device of the registry and one of its axes, with rest sample
    [center] and stored sample [last], and a new sample [now]: [pressed v]
    is [+1] above [center + (32767 - center) / 3], [-1] below
    [center - (center + 32768) / 3] and [0] otherwise; when
    [pressed last = pressed now] there is no event and [last] becomes [now];
    when they differ there is the one event
    [{direction = is != 0 ? is : was, pressed = (is != 0)}] and [last]
    becomes [now]. *)
Theorem C2_axis_discretization
  (devices : devices_t) (event : SDL_JoyAxisEvent) (device : SDLInputDevice) (a : Axis) :
  devices !! jaxis_which event = Some device ->
  vector_at (axes device) (jaxis_axis event) = Some a ->
  let center := initial a in
  let now := jaxis_value event in
  let was := pressed center (last a) in
  let is_ := pressed center now in
  let stored := store_axis device (jaxis_axis event) now a in
  (forall v, pressed center v
             = if decide (v > center + (32767 - center) ÷ 3) then 1
               else if decide (v < center - (center + 32768) ÷ 3) then -1
               else 0) /\
  vector_at (axes stored) (jaxis_axis event) = Some (mkAxis center now) /\
  (was = is_ ->
   DiscretizeJoyAxisEvent devices event
   = Returns None (<[jaxis_which event := stored]> devices)) /\
  (was <> is_ ->
   DiscretizeJoyAxisEvent devices event
   = Returns (Some (mkDAE (index device) (jaxis_axis event)
                          (if decide (is_ <> 0) then is_ else was)
                          (if decide (is_ <> 0) then 1 else 0)))
             (<[jaxis_which event := stored]> devices)).
Proof.
  intros Hdev Hax center now was is_ stored. repeat split.
  - intros v. unfold pressed.
    destruct (Z.gtb_spec v (center + (32767 - center) ÷ 3));
      destruct (decide (v > center + (32767 - center) ÷ 3)); try lia; try reflexivity.
    destruct (Z.ltb_spec v (center - (center + 32768) ÷ 3));
      destruct (decide (v < center - (center + 32768) ÷ 3)); try lia; reflexivity.
  - apply store_axis_last. exact Hax.
  - intros Heq. unfold DiscretizeJoyAxisEvent. rewrite Hdev, Hax.
    fold center now was is_. rewrite Heq, Z.eqb_refl. reflexivity.
  - intros Hne. unfold DiscretizeJoyAxisEvent. rewrite Hdev, Hax.
    fold center now was is_. apply Z.eqb_neq in Hne. rewrite Hne.
    destruct (Z.eqb_spec is_ 0); destruct (decide (is_ <> 0)); try contradiction;
      reflexivity.
Qed.

(** With the center in 0: into the positive zone, staying there, back to
    the center, into the negative zone. *)
Example axis_samples_around_center :
  axis_samples {[5 := stick5]} 5 0 [0; 20000; 20000; 0; -20000]
  = [None; Some (mkDAE 0 0 1 1); None; Some (mkDAE 0 0 1 0); Some (mkDAE 0 0 (-1) 1)].
Proof. vm_compute. reflexivity. Qed.

Lemma C2_axis_discretization_witness :
  DiscretizeJoyAxisEvent {[5 := stick5]} (mkJAxis 5 0 20000)
  = Returns (Some (mkDAE 0 0 1 1)) (<[5 := store_axis stick5 0 20000 (mkAxis 0 0)]> {[5 := stick5]}).
Proof.
  assert (Hdev : ({[5 := stick5]} : devices_t) !! 5 = Some stick5) by reflexivity.
  assert (Hax : vector_at (axes stick5) 0 = Some (mkAxis 0 0)) by reflexivity.
  destruct (C2_axis_discretization {[5 := stick5]} (mkJAxis 5 0 20000) stick5
              (mkAxis 0 0) Hdev Hax) as (_ & _ & _ & Hevent).
  apply Hevent. vm_compute. discriminate.
Defined.

(** ** The registry: slots *)

Lemma begin_end_lookup (devices : devices_t) (k : Z) (d : SDLInputDevice) :
  In (k, d) (begin_end devices) <-> devices !! k = Some d.
Proof.
  unfold begin_end. rewrite <- list_elem_of_In.
  rewrite (merge_sort_Permutation key_le (map_to_list devices)).
  apply elem_of_map_to_list.
Qed.

Lemma begin_end_length (devices : devices_t) :
  length (begin_end devices) = size devices.
Proof.
  unfold begin_end.
  rewrite (merge_sort_Permutation key_le (map_to_list devices)).
  apply length_map_to_list.
Qed.

Lemma none_of_true (devices : devices_t) (p : Z * SDLInputDevice -> bool) :
  none_of devices p = true <->
  (forall k d, devices !! k = Some d -> p (k, d) = false).
Proof.
  unfold none_of. rewrite forallb_forall. split.
  - intros Hall k d Hkd. apply begin_end_lookup in Hkd.
    specialize (Hall _ Hkd). now apply negb_true_iff in Hall.
  - intros Hall [k d] Hin. apply begin_end_lookup in Hin.
    apply negb_true_iff. now apply Hall.
Qed.

Lemma none_of_index (devices : devices_t) (i : Z) :
  none_of devices (fun d => index d.2 =? i) = true <-> ~ claimed devices i.
Proof.
  rewrite none_of_true. split.
  - intros Hall (k & d & Hkd & Hi). specialize (Hall k d Hkd). simpl in Hall.
    apply Z.eqb_neq in Hall. contradiction.
  - intros Hfree k d Hkd. simpl. apply Z.eqb_neq. intros Hi.
    apply Hfree. exists k, d. split; assumption.
Qed.

Lemma none_of_index_false (devices : devices_t) (i : Z) :
  none_of devices (fun d => index d.2 =? i) = false -> claimed devices i.
Proof.
  unfold none_of. intros Hnot.
  assert (Hex : existsb (fun d : Z * SDLInputDevice => index d.2 =? i)
                        (begin_end devices) = true).
  { induction (begin_end devices) as [|x l IH]; simpl in *; [discriminate|].
    destruct (index x.2 =? i); simpl in *; [reflexivity|]. apply IH, Hnot. }
  apply existsb_exists in Hex. destruct Hex as ([k d] & Hin & Hi).
  apply begin_end_lookup in Hin. apply Z.eqb_eq in Hi.
  exists k, d. split; assumption.
Qed.

(** Pigeonhole: when the slots [0 .. n-1] are all claimed, the registry
    holds [n] devices or more. *)
Lemma claimed_prefix_size (n : nat) :
  forall devices : devices_t,
    (forall j : nat, (j < n)%nat -> claimed devices (Z.of_nat j)) ->
    (n <= size devices)%nat.
Proof.
  induction n as [|n IH]; intros devices Hall; [lia|].
  destruct (Hall n (Nat.lt_succ_diag_r n)) as (k & d & Hkd & Hi).
  assert (Hsmaller : (n <= size (delete k devices))%nat).
  { apply IH. intros j Hj.
    destruct (Hall j (Nat.lt_lt_succ_r _ _ Hj)) as (k' & d' & Hkd' & Hi').
    exists k', d'. split; [|assumption].
    rewrite lookup_delete_ne; [assumption|].
    intros ->. rewrite Hkd in Hkd'. injection Hkd' as <-. lia. }
  rewrite <- (insert_delete_id devices k d Hkd).
  rewrite map_size_insert_None by apply lookup_delete_eq. lia.
Qed.

(** What the loop of [FindFirstOpenIndex] has established when it returns,
    and when it is cut short. *)
Lemma FindFirstOpenIndex_from_spec (fuel : nat) :
  forall (devices : devices_t) (i : Z),
    match FindFirstOpenIndex_from fuel devices i with
    | Some r => i <= r < i + Z.of_nat fuel /\ ~ claimed devices r /\
                (forall j, i <= j < r -> claimed devices j)
    | None => forall j, i <= j < i + Z.of_nat fuel -> claimed devices j
    end.
Proof.
  induction fuel as [|fuel IH]; intros devices i; simpl.
  - intros j Hj. lia.
  - destruct (none_of devices (fun d => index d.2 =? i)) eqn:Hnone.
    + apply none_of_index in Hnone. repeat split; [lia|lia|assumption|].
      intros j Hj. lia.
    + apply none_of_index_false in Hnone.
      specialize (IH devices (i + 1)).
      destruct (FindFirstOpenIndex_from fuel devices (i + 1)) as [r|].
      * destruct IH as (Hr & Hfree & Hbelow). repeat split; [lia|lia|assumption|].
        intros j Hj. destruct (Z.eq_dec j i) as [->|Hji]; [assumption|].
        apply Hbelow. lia.
      * intros j Hj. destruct (Z.eq_dec j i) as [->|Hji]; [assumption|].
        apply IH. lia.
Qed.

(** The loop returns within [size devices + 1] iterations, whatever the
    number of iterations it is allowed beyond that. *)
Lemma FindFirstOpenIndex_from_enough (devices : devices_t) (extra : nat) :
  exists r,
    FindFirstOpenIndex_from (S (size devices) + extra) devices 0 = Some r /\
    0 <= r <= Z.of_nat (size devices) /\
    ~ claimed devices r /\
    (forall j, 0 <= j < r -> claimed devices j).
Proof.
  pose proof (FindFirstOpenIndex_from_spec (S (size devices) + extra) devices 0) as Hspec.
  destruct (FindFirstOpenIndex_from (S (size devices) + extra) devices 0) as [r|].
  - destruct Hspec as (Hr & Hfree & Hbelow). exists r.
    repeat split; try assumption; try lia.
    assert (Hle : (Z.to_nat r <= size devices)%nat).
    { apply claimed_prefix_size. intros j Hj. apply Hbelow. lia. }
    lia.
  - exfalso.
    assert (Hle : (S (size devices) + extra <= size devices)%nat).
    { apply claimed_prefix_size. intros j Hj. apply Hspec. lia. }
    lia.
Qed.

Lemma smallest_free_unique (devices : devices_t) (r1 r2 : Z) :
  0 <= r1 -> ~ claimed devices r1 -> (forall j, 0 <= j < r1 -> claimed devices j) ->
  0 <= r2 -> ~ claimed devices r2 -> (forall j, 0 <= j < r2 -> claimed devices j) ->
  r1 = r2.
Proof.
  intros H1 Hf1 Hb1 H2 Hf2 Hb2.
  destruct (Z.lt_trichotomy r1 r2) as [Hlt|[Heq|Hgt]]; [|assumption|].
  - exfalso. apply Hf1, Hb2. lia.
  - exfalso. apply Hf2, Hb1. lia.
Qed.

Lemma FindFirstOpenIndex_spec (devices : devices_t) :
  let r := FindFirstOpenIndex devices in
  0 <= r <= Z.of_nat (size devices) /\
  ~ claimed devices r /\
  (forall j, 0 <= j < r -> claimed devices j).
Proof.
  destruct (FindFirstOpenIndex_from_enough devices 0) as (r & Hr & Hspec).
  unfold FindFirstOpenIndex. rewrite Nat.add_0_r in Hr. rewrite Hr. exact Hspec.
Qed.

(** C10. Whatever the registry, the unbounded loop of [FindFirstOpenIndex]
    returns: [size devices + 1] iterations are enough, more change nothing,
    and what it returns is at least 0 and at most the number of devices. *)
Theorem C10_FindFirstOpenIndex_terminates (devices : devices_t) (extra : nat) :
  FindFirstOpenIndex_from (S (size devices) + extra) devices 0
  = Some (FindFirstOpenIndex devices)
  /\ 0 <= FindFirstOpenIndex devices <= Z.of_nat (size devices).
Proof.
  destruct (FindFirstOpenIndex_from_enough devices extra) as (r & Hr & H0 & Hfree & Hbelow).
  destruct (FindFirstOpenIndex_spec devices) as (H0' & Hfree' & Hbelow').
  assert (Heq : r = FindFirstOpenIndex devices).
  { apply (smallest_free_unique devices); try assumption; lia. }
  subst r. split; assumption.
Qed.

Lemma FindFirstOpenIndex_eq (devices : devices_t) (r : Z) :
  0 <= r -> ~ claimed devices r -> (forall j, 0 <= j < r -> claimed devices j) ->
  FindFirstOpenIndex devices = r.
Proof.
  intros H0 Hfree Hbelow.
  destruct (FindFirstOpenIndex_spec devices) as (H0' & Hfree' & Hbelow').
  apply (smallest_free_unique devices); try assumption; lia.
Qed.

Lemma AddDevice_opened (sdl : SDL_library) (devices : devices_t) (n : Z)
  (d : SDLInputDevice) :
  open sdl SDLInputDevice_init n = (true, d) ->
  AddDevice sdl devices n
  = map_insert_new (instance_id d) (set_index d (FindFirstOpenIndex devices)) devices.
Proof. intros Hopen. unfold AddDevice. rewrite Hopen. reflexivity. Qed.

Lemma AddDevice_not_opened (sdl : SDL_library) (devices : devices_t) (n : Z) :
  (open sdl SDLInputDevice_init n).1 = false ->
  AddDevice sdl devices n = devices.
Proof.
  intros Hopen. unfold AddDevice.
  destruct (open sdl SDLInputDevice_init n) as [opened d].
  simpl in Hopen. rewrite Hopen. reflexivity.
Qed.

Lemma AddDevice_new (sdl : SDL_library) (devices : devices_t) (n : Z)
  (d : SDLInputDevice) :
  open sdl SDLInputDevice_init n = (true, d) ->
  devices !! instance_id d = None ->
  AddDevice sdl devices n
  = <[instance_id d := set_index d (FindFirstOpenIndex devices)]> devices.
Proof.
  intros Hopen Hnew. rewrite (AddDevice_opened _ _ _ _ Hopen).
  unfold map_insert_new. simpl. rewrite Hnew. reflexivity.
Qed.

Lemma RemoveDevice_registry (devices : devices_t) (id : Z) :
  (RemoveDevice devices id).1 = delete id devices.
Proof.
  unfold RemoveDevice. destruct (devices !! id) eqn:Hid; simpl; [reflexivity|].
  symmetry. apply delete_id. exact Hid.
Qed.

(** Attach A, attach B, detach A, attach C: the slots are 0, 1, and 0 again. *)
Lemma slot_reuse (sdlA sdlB sdlC : SDL_library) (nA nB nC : Z)
  (dA dB dC : SDLInputDevice) :
  open sdlA SDLInputDevice_init nA = (true, dA) ->
  open sdlB SDLInputDevice_init nB = (true, dB) ->
  open sdlC SDLInputDevice_init nC = (true, dC) ->
  instance_id dA <> instance_id dB ->
  instance_id dC <> instance_id dB ->
  let r1 := AddDevice sdlA ∅ nA in
  let r2 := AddDevice sdlB r1 nB in
  let r3 := (RemoveDevice r2 (instance_id dA)).1 in
  let r4 := AddDevice sdlC r3 nC in
  r1 !! instance_id dA = Some (set_index dA 0) /\
  r2 !! instance_id dB = Some (set_index dB 1) /\
  r3 !! instance_id dA = None /\
  r3 !! instance_id dB = Some (set_index dB 1) /\
  r4 !! instance_id dC = Some (set_index dC 0) /\
  r4 !! instance_id dB = Some (set_index dB 1).
Proof.
  intros HA HB HC Hab Hcb r1 r2 r3 r4.
  assert (E0 : FindFirstOpenIndex (∅ : devices_t) = 0).
  { apply FindFirstOpenIndex_eq; [lia| |intros j Hj; lia].
    intros (k & d & Hkd & _). rewrite lookup_empty in Hkd. discriminate. }
  assert (E1 : r1 = {[instance_id dA := set_index dA 0]}).
  { unfold r1. rewrite (AddDevice_new _ _ _ _ HA) by apply lookup_empty.
    rewrite E0. reflexivity. }
  assert (E1' : FindFirstOpenIndex r1 = 1).
  { apply FindFirstOpenIndex_eq; [lia| |].
    - intros (k & d & Hkd & Hi). rewrite E1 in Hkd.
      apply lookup_singleton_Some in Hkd. destruct Hkd as [_ <-].
      simpl in Hi. discriminate.
    - intros j Hj. assert (j = 0) as -> by lia.
      exists (instance_id dA), (set_index dA 0). rewrite E1.
      split; [apply lookup_singleton_eq|reflexivity]. }
  assert (E2 : r2 = <[instance_id dB := set_index dB 1]> r1).
  { unfold r2. rewrite (AddDevice_new _ _ _ _ HB).
    - rewrite E1'. reflexivity.
    - rewrite E1. apply lookup_singleton_ne. exact Hab. }
  assert (E3 : r3 = {[instance_id dB := set_index dB 1]}).
  { unfold r3. rewrite RemoveDevice_registry, E2, E1.
    rewrite delete_insert_ne by congruence.
    rewrite delete_singleton_eq. reflexivity. }
  assert (E3' : FindFirstOpenIndex r3 = 0).
  { apply FindFirstOpenIndex_eq; [lia| |intros j Hj; lia].
    intros (k & d & Hkd & Hi). rewrite E3 in Hkd.
    apply lookup_singleton_Some in Hkd. destruct Hkd as [_ <-].
    simpl in Hi. discriminate. }
  assert (E4 : r4 = <[instance_id dC := set_index dC 0]> r3).
  { unfold r4. rewrite (AddDevice_new _ _ _ _ HC).
    - rewrite E3'. reflexivity.
    - rewrite E3. apply lookup_singleton_ne. congruence. }
  repeat split.
  - rewrite E1. apply lookup_singleton_eq.
  - rewrite E2. apply lookup_insert_eq.
  - rewrite E3. apply lookup_singleton_ne. congruence.
  - rewrite E3. apply lookup_singleton_eq.
  - rewrite E4. apply lookup_insert_eq.
  - rewrite E4, lookup_insert_ne by exact Hcb. rewrite E3. apply lookup_singleton_eq.
Qed.

(** C3. [FindFirstOpenIndex] returns the smallest integer from 0 on that
    is the [index] of no device of the registry; [AddDevice] gives it to the
    device it registers; and so a slot that a detach has freed is taken
    again before any higher one: attach A, attach B, detach A, attach C
    gives A slot 0, B slot 1, and C slot 0 while B keeps slot 1. *)
Theorem C3_slot_assignment :
  (forall devices : devices_t,
      let r := FindFirstOpenIndex devices in
      0 <= r /\ ~ claimed devices r /\ (forall j, 0 <= j < r -> claimed devices j)) /\
  (forall (sdl : SDL_library) (devices : devices_t) (n : Z) (d : SDLInputDevice),
      open sdl SDLInputDevice_init n = (true, d) ->
      devices !! instance_id d = None ->
      index <$> AddDevice sdl devices n !! instance_id d
      = Some (FindFirstOpenIndex devices)) /\
  (forall (sdlA sdlB sdlC : SDL_library) (nA nB nC : Z) (dA dB dC : SDLInputDevice),
      open sdlA SDLInputDevice_init nA = (true, dA) ->
      open sdlB SDLInputDevice_init nB = (true, dB) ->
      open sdlC SDLInputDevice_init nC = (true, dC) ->
      instance_id dA <> instance_id dB ->
      instance_id dC <> instance_id dB ->
      let r1 := AddDevice sdlA ∅ nA in
      let r2 := AddDevice sdlB r1 nB in
      let r3 := (RemoveDevice r2 (instance_id dA)).1 in
      let r4 := AddDevice sdlC r3 nC in
      index <$> r1 !! instance_id dA = Some 0 /\
      index <$> r2 !! instance_id dB = Some 1 /\
      r3 !! instance_id dA = None /\
      index <$> r3 !! instance_id dB = Some 1 /\
      index <$> r4 !! instance_id dC = Some 0 /\
      index <$> r4 !! instance_id dB = Some 1).
Proof.
  split; [|split].
  - intros devices r.
    destruct (FindFirstOpenIndex_spec devices) as (H0 & Hfree & Hbelow).
    repeat split; try assumption; lia.
  - intros sdl devices n d Hopen Hnew.
    rewrite (AddDevice_new _ _ _ _ Hopen Hnew), lookup_insert_eq. reflexivity.
  - intros sdlA sdlB sdlC nA nB nC dA dB dC HA HB HC Hab Hcb.
    destruct (slot_reuse sdlA sdlB sdlC nA nB nC dA dB dC HA HB HC Hab Hcb)
      as (H1 & H2 & H3 & H4 & H5 & H6).
    cbv zeta. rewrite H1, H2, H3, H4, H5, H6. repeat split; reflexivity.
Qed.

(** ** The registry: uniqueness of the slots *)

Lemma slots_unique_empty : slots_unique ∅.
Proof. intros k1 k2 d1 d2 H1. rewrite lookup_empty in H1. discriminate. Qed.

Lemma slots_unique_delete (devices : devices_t) (k : Z) :
  slots_unique devices -> slots_unique (delete k devices).
Proof.
  intros Hu k1 k2 d1 d2 H1 H2.
  apply lookup_delete_Some in H1. apply lookup_delete_Some in H2.
  apply Hu; tauto.
Qed.

Lemma slots_unique_insert (devices : devices_t) (k : Z) (d : SDLInputDevice) :
  slots_unique devices -> ~ claimed devices (index d) ->
  slots_unique (<[k := d]> devices).
Proof.
  intros Hu Hfree k1 k2 d1 d2 H1 H2 Hi.
  apply lookup_insert_Some in H1. apply lookup_insert_Some in H2.
  destruct H1 as [[<- <-]|[Hk1 H1]], H2 as [[<- <-]|[Hk2 H2]].
  - reflexivity.
  - exfalso. apply Hfree. exists k2, d2. split; [assumption|congruence].
  - exfalso. apply Hfree. exists k1, d1. split; [assumption|congruence].
  - apply (Hu k1 k2 d1 d2); assumption.
Qed.

Lemma slots_unique_AddDevice (sdl : SDL_library) (devices : devices_t) (n : Z) :
  slots_unique devices -> slots_unique (AddDevice sdl devices n).
Proof.
  intros Hu. unfold AddDevice.
  destruct (open sdl SDLInputDevice_init n) as [[|] d]; simpl; [|assumption].
  unfold map_insert_new. simpl.
  destruct (devices !! instance_id d); [assumption|].
  apply slots_unique_insert; [assumption|]. simpl.
  apply (FindFirstOpenIndex_spec devices).
Qed.

Lemma slots_unique_apply_op (devices : devices_t) (o : registry_op) :
  slots_unique devices -> slots_unique (apply_op devices o).
Proof.
  intros Hu. destruct o as [sdl n|id]; simpl.
  - apply slots_unique_AddDevice, Hu.
  - rewrite RemoveDevice_registry. apply slots_unique_delete, Hu.
Qed.

Lemma slots_unique_apply_ops (ops : list registry_op) :
  forall devices, slots_unique devices -> slots_unique (apply_ops ops devices).
Proof.
  unfold apply_ops. induction ops as [|o ops IH]; intros devices Hu; simpl.
  - exact Hu.
  - apply IH, slots_unique_apply_op, Hu.
Qed.

(** C4. From the empty registry, after any number of the calls of any
    sequence of [AddDevice] and [RemoveDevice], the [index] values of the
    devices in the registry are pairwise distinct. *)
Theorem C4_slots_unique (ops : list registry_op) (n : nat) :
  slots_unique (apply_ops (take n ops) ∅).
Proof. apply slots_unique_apply_ops, slots_unique_empty. Qed.

(** ** The registry: a device that does not open *)

(** C6. When the SDL call that opens the device returns a null handle
    ([SDL_GameControllerGetJoystick] of a null controller being null),
    [open] returns [false] and [AddDevice] leaves the registry as it was:
    no entry is added and the next free slot is the same. *)
Theorem C6_AddDevice_open_fails (sdl : SDL_library) (devices : devices_t) (n : Z) :
  SDL_GameControllerGetJoystick sdl nullptr = nullptr ->
  (if SDL_IsGameController sdl n then SDL_GameControllerOpen sdl n
   else SDL_JoystickOpen sdl n) = nullptr ->
  (open sdl SDLInputDevice_init n).1 = false /\
  AddDevice sdl devices n = devices /\
  FindFirstOpenIndex (AddDevice sdl devices n) = FindFirstOpenIndex devices.
Proof.
  intros Hnull Hfail.
  assert (Hopen : (open sdl SDLInputDevice_init n).1 = false).
  { unfold open. destruct (SDL_IsGameController sdl n).
    - rewrite Hfail, Hnull. reflexivity.
    - rewrite Hfail. reflexivity. }
  split; [exact Hopen|].
  rewrite (AddDevice_not_opened _ _ _ Hopen). split; reflexivity.
Qed.

Lemma C3_slot_assignment_witness :
  index <$> AddDevice sdl_A ∅ 0 !! 10 = Some 0 /\
  index <$> AddDevice sdl_B (AddDevice sdl_A ∅ 0) 0 !! 11 = Some 1 /\
  index <$> AddDevice sdl_C
              (RemoveDevice (AddDevice sdl_B (AddDevice sdl_A ∅ 0) 0) 10).1 0 !! 12
  = Some 0.
Proof.
  assert (HA : open sdl_A SDLInputDevice_init 0
               = (true, (open sdl_A SDLInputDevice_init 0).2)) by reflexivity.
  assert (HB : open sdl_B SDLInputDevice_init 0
               = (true, (open sdl_B SDLInputDevice_init 0).2)) by reflexivity.
  assert (HC : open sdl_C SDLInputDevice_init 0
               = (true, (open sdl_C SDLInputDevice_init 0).2)) by reflexivity.
  destruct C3_slot_assignment as (_ & _ & Hscenario).
  destruct (Hscenario sdl_A sdl_B sdl_C 0 0 0 _ _ _ HA HB HC)
    as (H1 & H2 & _ & _ & H5 & _).
  - vm_compute. discriminate.
  - vm_compute. discriminate.
  - split; [exact H1|split; [exact H2|exact H5]].
Defined.

Lemma C6_AddDevice_open_fails_witness :
  (open unplugged SDLInputDevice_init 3).1 = false /\
  AddDevice unplugged {[5 := stick5]} 3 = {[5 := stick5]}.
Proof.
  destruct (C6_AddDevice_open_fails unplugged {[5 := stick5]} 3) as (Hopen & Hsame & _).
  - reflexivity.
  - reflexivity.
  - split; [exact Hopen|exact Hsame].
Defined.

(** ** An instance id that is not in the registry *)

Lemma C5_unknown_instance_counterexample :
  (∅ : devices_t) !! 5 = None /\
  DiscretizeHatEvent (H := SDL2_joystick_h) ∅ (mkJHat 5 0 1) = Throws out_of_range ∅ /\
  DiscretizeJoyAxisEvent ∅ (mkJAxis 5 0 20000) = Throws out_of_range ∅ /\
  w_devices (dispatch work_id rumble_id (delivers (SDL_JOYBUTTONDOWN 5 0) 0)
                      (mkWorker ∅ true (SDL_JOYBUTTONDOWN 5 0) None)).1
  = {[5 := SDLInputDevice_init]} /\
  ({[5 := SDLInputDevice_init]} : devices_t) <> ∅.
Proof.
  repeat split; try reflexivity.
  intros Hempty.
  assert (Hlookup : ({[5 := SDLInputDevice_init]} : devices_t) !! 5 = None)
    by (rewrite Hempty; reflexivity).
  vm_compute in Hlookup. discriminate.
Qed.

(** C5, as the code has it. For an instance id that is not in the registry,
    [RemoveDevice] returns, closes no handle and leaves the registry as it
    is; [DiscretizeHatEvent] and [DiscretizeJoyAxisEvent] give no event and
    leave the registry as it is too, but they end by the exception
    [std::out_of_range] of [std::map::at]. *)
Theorem C5_unknown_instance `{SDL_joystick_h} (devices : devices_t) (id : Z) :
  devices !! id = None ->
  RemoveDevice devices id = (devices, []) /\
  (forall hat value,
      DiscretizeHatEvent devices (mkJHat id hat value) = Throws out_of_range devices) /\
  (forall axis value,
      DiscretizeJoyAxisEvent devices (mkJAxis id axis value) = Throws out_of_range devices).
Proof.
  intros Habsent. repeat split.
  - unfold RemoveDevice. rewrite Habsent. reflexivity.
  - intros hat value. unfold DiscretizeHatEvent. simpl. rewrite Habsent. reflexivity.
  - intros axis value. unfold DiscretizeJoyAxisEvent. simpl. rewrite Habsent. reflexivity.
Qed.

Lemma C5_unknown_instance_witness :
  RemoveDevice {[5 := stick5]} 6 = ({[5 := stick5]}, []) /\
  DiscretizeHatEvent (H := SDL2_joystick_h) {[5 := stick5]} (mkJHat 6 0 1)
  = Throws out_of_range {[5 := stick5]}.
Proof.
  destruct (C5_unknown_instance (H := SDL2_joystick_h) {[5 := stick5]} 6)
    as (Hremove & Hhat & _).
  - reflexivity.
  - split; [exact Hremove|apply Hhat].
Defined.

(** ** The worker loop *)

Lemma rumble_all_each_device (devices : devices_t) (low high duration : Z) :
  rumble_all devices low high duration
  ≡ₚ map (fun d => SDL_GameControllerRumble (controller d.2) low high duration)
         (map_to_list devices)
  /\ length (rumble_all devices low high duration) = size devices.
Proof.
  unfold rumble_all, begin_end. split.
  - apply Permutation_map, merge_sort_Permutation.
  - rewrite length_map. apply begin_end_length.
Qed.

(** While a deadline is pending, an event that the wait delivers leaves a
    deadline pending: no [case] of the [switch] clears [rumble_end]. *)
Lemma pending_deadline_survives_event (wid rid : Z) (s : surroundings) (w : worker)
  (ev : SDL_Event) :
  is_Some (w_rumble_end w) -> waited s = Some ev ->
  is_Some (w_rumble_end (loop_body wid rid s w).1).
Proof.
  intros [t Ht] Hev. unfold loop_body, wait_phase. rewrite Ht, Hev.
  unfold dispatch. simpl.
  destruct ev; simpl; try (eexists; reflexivity).
  - destruct (map_subscript (w_devices w) which); simpl. eexists; reflexivity.
  - destruct (map_subscript (w_devices w) which); simpl. eexists; reflexivity.
  - destruct (RemoveDevice (w_devices w) which); simpl. eexists; reflexivity.
  - destruct (type =? wid); simpl; [eexists; reflexivity|].
    destruct (type =? rid); simpl; [|eexists; reflexivity].
    destruct (rumble_data s) as [[low high] duration]. simpl. eexists; reflexivity.
Qed.

(** When the wait on a pending deadline returns 0, the deadline is cleared
    and there is one call per device of the registry, to its [controller]
    handle, before the [switch] is entered. *)
Lemma timeout_stops_all (s : surroundings) (w : worker) (rumble_end : Z) :
  w_rumble_end w = Some rumble_end -> waited s = None ->
  exists timeout,
    wait_phase s w
    = (mkWorker (w_devices w) (w_run w) (w_e w) None,
       SDL_WaitEventTimeout timeout :: rumble_all (w_devices w) 0 0 0).
Proof.
  intros Hend Hnone. unfold wait_phase. rewrite Hend, Hnone.
  eexists. reflexivity.
Qed.

(** After that, the [switch] is entered with the event of the iteration
    before: when it is the rumble request, the rumble is started and the
    deadline set again. *)
Lemma timeout_dispatches_previous_event (wid rid : Z) (s : surroundings) (w : worker)
  (rumble_end : Z) :
  w_rumble_end w = Some rumble_end -> waited s = None ->
  w_e w = SDL_other rid -> wid <> rid ->
  exists timeout,
    loop_body wid rid s w
    = (mkWorker (w_devices w) (w_run w) (w_e w)
                (Some (to_int (to_Uint32 (SDL_GetTicks s + (rumble_data s).2)))),
       SDL_WaitEventTimeout timeout
         :: rumble_all (w_devices w) 0 0 0
         ++ rumble_all (w_devices w) (rumble_data s).1.1 (rumble_data s).1.2
                       (rumble_data s).2).
Proof.
  intros Hend Hnone He Hids.
  destruct (timeout_stops_all s w rumble_end Hend Hnone) as (timeout & Hwait).
  exists timeout. unfold loop_body. rewrite Hwait. unfold dispatch. simpl.
  rewrite He. apply Z.eqb_neq in Hids. rewrite Z.eqb_sym in Hids. rewrite Hids.
  rewrite Z.eqb_refl. destruct (rumble_data s) as [[low high] duration].
  reflexivity.
Qed.

(** C7, on the code. One controller is open; a rumble of 50 ms is
    requested and nothing else arrives. When the wait times out, the stop
    is sent, and with it the rumble is started and the deadline set again;
    at the next time-out the stop is sent a second time, and so on. *)
Theorem C7_rumble_stop_repeats :
  run work_id rumble_id {[7 := pad7]}
      [delivers (SDL_other rumble_id) 1000; times_out 1050; times_out 1100]
  = (mkWorker {[7 := pad7]} true (SDL_other rumble_id) (Some 1150),
     [SDL_Init;
      SDL_WaitEvent; SDL_GameControllerRumble 900 1000 2000 50;
      SDL_WaitEventTimeout 0; SDL_GameControllerRumble 900 0 0 0;
      SDL_GameControllerRumble 900 1000 2000 50;
      SDL_WaitEventTimeout 0; SDL_GameControllerRumble 900 0 0 0;
      SDL_GameControllerRumble 900 1000 2000 50]).
Proof. vm_compute. reflexivity. Qed.

(** ** Shutdown *)

Lemma while_run_stopped (wid rid : Z) (ss : list surroundings) (w : worker) :
  w_run w = false -> while_run wid rid ss w = (w, []).
Proof. intros Hstop. destruct ss; simpl; [reflexivity|]. rewrite Hstop. reflexivity. Qed.

Lemma while_run_app (wid rid : Z) (ss1 ss2 : list surroundings) :
  forall w,
    while_run wid rid (ss1 ++ ss2) w
    = let (w1, calls1) := while_run wid rid ss1 w in
      let (w2, calls2) := while_run wid rid ss2 w1 in
      (w2, calls1 ++ calls2).
Proof.
  induction ss1 as [|s ss1 IH]; intros w; simpl.
  - destruct (while_run wid rid ss2 w). reflexivity.
  - destruct (w_run w) eqn:Hrun.
    + destruct (loop_body wid rid s w) as [w1 calls1]. rewrite IH.
      destruct (while_run wid rid ss1 w1) as [w2 calls2].
      destruct (while_run wid rid ss2 w2) as [w3 calls3].
      rewrite app_assoc. reflexivity.
    + rewrite (while_run_stopped wid rid ss2 w Hrun). reflexivity.
Qed.

(** The iteration that receives [SDL_QUIT]: it makes its wait and no other
    call, clears [run], and leaves the registry as it is. *)
Lemma quit_iteration (wid rid : Z) (s : surroundings) (w : worker) :
  waited s = Some SDL_QUIT ->
  exists c,
    loop_body wid rid s w
    = (mkWorker (w_devices w) false SDL_QUIT (w_rumble_end w), [c]) /\
    (c = SDL_WaitEvent \/ exists timeout, c = SDL_WaitEventTimeout timeout).
Proof.
  intros Hquit. unfold loop_body, wait_phase. rewrite Hquit.
  destruct (w_rumble_end w) as [rumble_end|]; simpl.
  - eexists. split; [reflexivity|]. right. eexists. reflexivity.
  - eexists. split; [reflexivity|]. left. reflexivity.
Qed.

Lemma rumble_all_no_Quit (devices : devices_t) (low high duration : Z) :
  ~ In SDL_Quit (rumble_all devices low high duration).
Proof.
  unfold rumble_all. intros Hin. apply in_map_iff in Hin.
  destruct Hin as (d & Hd & _). discriminate.
Qed.

Lemma loop_body_no_Quit (wid rid : Z) (s : surroundings) (w : worker) :
  ~ In SDL_Quit (loop_body wid rid s w).2.
Proof.
  unfold loop_body.
  assert (Hwait : ~ In SDL_Quit (wait_phase s w).2).
  { unfold wait_phase.
    destruct (w_rumble_end w), (waited s); simpl; try (intros [Hc|[]]; discriminate).
    intros [Hc|Hin]; [discriminate|]. revert Hin. apply rumble_all_no_Quit. }
  destruct (wait_phase s w) as [w1 calls1]. simpl in Hwait.
  assert (Hswitch : ~ In SDL_Quit (dispatch wid rid s w1).2).
  { unfold dispatch. destruct (w_e w1) eqn:He; simpl;
      try (intros [Hc|[]]; discriminate); try (intros []).
    - destruct (map_subscript (w_devices w1) which). simpl.
      intros [Hc|[]]; discriminate.
    - destruct (map_subscript (w_devices w1) which). simpl.
      intros [Hc|[]]; discriminate.
    - unfold RemoveDevice. destruct (w_devices w1 !! which) as [d|]; simpl.
      + destruct (is_controller d); intros [Hc|[Hc|[]]]; discriminate.
      + intros [Hc|[]]; discriminate.
    - destruct (type =? wid); simpl; [intros [Hc|[]]; discriminate|].
      destruct (type =? rid); simpl; [|intros []].
      destruct (rumble_data s) as [[low high] duration]. simpl.
      apply rumble_all_no_Quit. }
  destruct (dispatch wid rid s w1) as [w2 calls2]. simpl in *.
  intros Hin. apply in_app_or in Hin. tauto.
Qed.

Lemma while_run_no_Quit (wid rid : Z) (ss : list surroundings) :
  forall w, ~ In SDL_Quit (while_run wid rid ss w).2.
Proof.
  induction ss as [|s ss IH]; intros w; simpl; [intros []|].
  destruct (w_run w); [|intros []].
  pose proof (loop_body_no_Quit wid rid s w) as Hbody.
  destruct (loop_body wid rid s w) as [w1 calls1].
  specialize (IH w1). destruct (while_run wid rid ss w1) as [w2 calls2].
  simpl in *. intros Hin. apply in_app_or in Hin. tauto.
Qed.

Lemma C8_shutdown_counterexample :
  ({[5 := stick5]} : devices_t) !! 5 = Some stick5 /\
  run work_id rumble_id {[5 := stick5]} [delivers SDL_QUIT 0]
  = (mkWorker {[5 := stick5]} false SDL_QUIT None, [SDL_Init; SDL_WaitEvent; SDL_Quit]) /\
  ~ In (SDL_JoystickClose (joystick stick5)) [SDL_Init; SDL_WaitEvent; SDL_Quit].
Proof.
  split; [reflexivity|]. split; [vm_compute; reflexivity|].
  simpl. intros [Hc|[Hc|[Hc|[]]]]; discriminate.
Qed.

(** C8, as the code has it. The iteration that receives the shutdown event
    leaves the loop: it makes no call besides its wait, so closes no device,
    and leaves the registry as it is. What arrives after the shutdown event,
    a second shutdown too, is not looked at. After the loop [SDL_Quit()] is
    called, once. *)
Theorem C8_shutdown (wid rid : Z) (devices : devices_t)
  (ss1 ss2 : list surroundings) (s : surroundings) :
  waited s = Some SDL_QUIT ->
  (forall w, exists c,
      loop_body wid rid s w
      = (mkWorker (w_devices w) false SDL_QUIT (w_rumble_end w), [c]) /\
      (c = SDL_WaitEvent \/ exists timeout, c = SDL_WaitEventTimeout timeout)) /\
  run wid rid devices (ss1 ++ s :: ss2) = run wid rid devices (ss1 ++ [s]) /\
  (exists w calls,
      run wid rid devices (ss1 ++ [s]) = (w, SDL_Init :: calls ++ [SDL_Quit]) /\
      w_run w = false /\ ~ In SDL_Quit calls).
Proof.
  intros Hquit. split; [intros w; apply quit_iteration, Hquit|].
  set (w0 := mkWorker devices true (SDL_other 0) None).
  assert (Hend : forall ss, exists w calls,
             while_run wid rid (ss1 ++ s :: ss) w0 = (w, calls) /\
             while_run wid rid (ss1 ++ [s]) w0 = (w, calls) /\
             w_run w = false).
  { intros ss. rewrite !while_run_app.
    destruct (while_run wid rid ss1 w0) as [w1 calls1]. simpl.
    destruct (w_run w1) eqn:Hrun.
    - destruct (quit_iteration wid rid s w1 Hquit) as (c & Hbody & _).
      rewrite Hbody. rewrite while_run_stopped by reflexivity.
      eexists _, _. split; [reflexivity|]. split; reflexivity.
    - eexists _, _. split; [reflexivity|]. split; [reflexivity|exact Hrun]. }
  split.
  - destruct (Hend ss2) as (w & calls & Hlong & Hshort & Hstop).
    unfold run. fold w0. rewrite Hlong, Hshort. reflexivity.
  - destruct (Hend ss2) as (w & calls & _ & Hshort & Hstop).
    exists w, calls. unfold run. fold w0. rewrite Hshort, Hstop.
    split; [reflexivity|]. split; [reflexivity|].
    pose proof (while_run_no_Quit wid rid (ss1 ++ [s]) w0) as Hno.
    rewrite Hshort in Hno. exact Hno.
Qed.

Lemma C8_shutdown_witness :
  run work_id rumble_id {[5 := stick5]}
      ([delivers (SDL_JOYBUTTONDOWN 5 1) 0] ++ delivers SDL_QUIT 1 :: [delivers SDL_QUIT 2])
  = run work_id rumble_id {[5 := stick5]}
        ([delivers (SDL_JOYBUTTONDOWN 5 1) 0] ++ [delivers SDL_QUIT 1]).
Proof.
  destruct (C8_shutdown work_id rumble_id {[5 := stick5]}
              [delivers (SDL_JOYBUTTONDOWN 5 1) 0] [delivers SDL_QUIT 2]
              (delivers SDL_QUIT 1)) as (_ & Hsame & _).
  - reflexivity.
  - exact Hsame.
Defined.

(** * More of the registry *)

(** [RemoveDevice] of an id of the registry: one call closes the handle,
    [SDL_GameControllerClose] for a game controller and [SDL_JoystickClose]
    for a plain joystick; the entry is gone, the others are as they were;
    a second [RemoveDevice] of the id closes nothing. *)
Theorem RemoveDevice_present (devices : devices_t) (id : Z) (d : SDLInputDevice) :
  devices !! id = Some d ->
  (RemoveDevice devices id).2
  = [if is_controller d then SDL_GameControllerClose (controller d)
     else SDL_JoystickClose (joystick d)] /\
  (RemoveDevice devices id).1 !! id = None /\
  (forall k, k <> id -> (RemoveDevice devices id).1 !! k = devices !! k) /\
  S (size (RemoveDevice devices id).1) = size devices /\
  RemoveDevice (RemoveDevice devices id).1 id = ((RemoveDevice devices id).1, []).
Proof.
  intros Hid. rewrite RemoveDevice_registry.
  split; [unfold RemoveDevice; rewrite Hid; reflexivity|].
  split; [apply lookup_delete_eq|].
  split; [intros k Hk; apply lookup_delete_ne; congruence|].
  split.
  - rewrite <- (insert_delete_id devices id d Hid) at 2.
    rewrite map_size_insert_None by apply lookup_delete_eq. reflexivity.
  - unfold RemoveDevice at 1. rewrite lookup_delete_eq. reflexivity.
Qed.

Lemma RemoveDevice_present_witness :
  RemoveDevice {[5 := stick5]} 5 = (∅, [SDL_JoystickClose 77]).
Proof.
  assert (Hid : ({[5 := stick5]} : devices_t) !! 5 = Some stick5) by reflexivity.
  destruct (RemoveDevice_present {[5 := stick5]} 5 stick5 Hid) as (Hcalls & _).
  rewrite (surjective_pairing (RemoveDevice {[5 := stick5]} 5)), Hcalls.
  rewrite RemoveDevice_registry. rewrite delete_singleton_eq. reflexivity.
Defined.

(** [AddDevice] leaves every entry of the registry as it is and adds one
    entry at most; when the instance id of the opened device is in the
    registry already, the registry stays as it is. *)
Theorem AddDevice_keeps_entries (sdl : SDL_library) (devices : devices_t) (n : Z) :
  (forall k d, devices !! k = Some d -> AddDevice sdl devices n !! k = Some d) /\
  (size devices <= size (AddDevice sdl devices n) <= S (size devices))%nat /\
  (forall d, open sdl SDLInputDevice_init n = (true, d) ->
             is_Some (devices !! instance_id d) ->
             AddDevice sdl devices n = devices).
Proof.
  unfold AddDevice.
  destruct (open sdl SDLInputDevice_init n) as [[|] d0] eqn:Hopen; simpl.
  - unfold map_insert_new. simpl.
    destruct (devices !! instance_id d0) as [d1|] eqn:Hid.
    + split; [auto|split; [lia|auto]].
    + split; [|split].
      * intros k d Hk. rewrite lookup_insert_ne; [assumption|congruence].
      * rewrite map_size_insert_None by assumption. lia.
      * intros d Hd [x Hx]. injection Hd as <-. congruence.
  - split; [auto|split; [lia|intros d Hd; discriminate]].
Qed.

Lemma AddDevice_keeps_entries_witness :
  AddDevice (plugged false 77 5 1 1 2) {[5 := store_axis stick5 0 20000 (mkAxis 0 0)]} 0
  = {[5 := store_axis stick5 0 20000 (mkAxis 0 0)]}.
Proof.
  destruct (AddDevice_keeps_entries (plugged false 77 5 1 1 2)
              {[5 := store_axis stick5 0 20000 (mkAxis 0 0)]} 0) as (_ & _ & Hsame).
  apply (Hsame (open (plugged false 77 5 1 1 2) SDLInputDevice_init 0).2).
  - reflexivity.
  - eexists. reflexivity.
Defined.

(** Attach, then detach: when the device opens under an instance id that
    is not in the registry, [RemoveDevice] of that id after [AddDevice]
    gives the registry back, with the one call that closes the handle. *)
Theorem AddDevice_RemoveDevice (sdl : SDL_library) (devices : devices_t) (n : Z)
  (d : SDLInputDevice) :
  open sdl SDLInputDevice_init n = (true, d) ->
  devices !! instance_id d = None ->
  RemoveDevice (AddDevice sdl devices n) (instance_id d)
  = (devices,
     [if is_controller d then SDL_GameControllerClose (controller d)
      else SDL_JoystickClose (joystick d)]).
Proof.
  intros Hopen Hnew. rewrite (AddDevice_new _ _ _ _ Hopen Hnew).
  unfold RemoveDevice. rewrite lookup_insert_eq. simpl.
  rewrite delete_insert_eq, delete_id by assumption. reflexivity.
Qed.

Lemma AddDevice_RemoveDevice_witness :
  RemoveDevice (AddDevice sdl_B {[5 := stick5]} 0) 11
  = ({[5 := stick5]}, [SDL_GameControllerClose 1102]).
Proof.
  apply (AddDevice_RemoveDevice sdl_B {[5 := stick5]} 0
           (open sdl_B SDLInputDevice_init 0).2); reflexivity.
Defined.



Lemma open_handles (sdl : SDL_library) (this d : SDLInputDevice) (n : Z) :
  open sdl this n = (true, d) ->
  joystick d <> nullptr /\ (is_controller d = false -> controller d = nullptr).
Proof.
  unfold open.
  set (j := if SDL_IsGameController sdl n
            then SDL_GameControllerGetJoystick sdl
                   (if SDL_IsGameController sdl n then SDL_GameControllerOpen sdl n
                    else nullptr)
            else SDL_JoystickOpen sdl n).
  destruct (Z.eqb_spec j nullptr) as [Hj|Hj]; [discriminate|].
  intros Hopen. injection Hopen as <-. simpl. split; [exact Hj|].
  intros ->. reflexivity.
Qed.

Lemma registry_ok_AddDevice (sdl : SDL_library) (devices : devices_t) (n : Z) :
  registry_ok devices -> registry_ok (AddDevice sdl devices n).
Proof.
  intros Hok. unfold AddDevice.
  destruct (open sdl SDLInputDevice_init n) as [[|] d0] eqn:Hopen; simpl in *; [|assumption].
  unfold map_insert_new. simpl.
  destruct (devices !! instance_id d0) eqn:Hid; [assumption|].
  intros k d Hk. apply lookup_insert_Some in Hk.
  destruct Hk as [[<- <-]|[_ Hk]]; [|apply Hok, Hk].
  destruct (open_handles _ _ _ _ Hopen) as [Hjoy Hplain].
  unfold entry_ok. simpl. repeat split.
  - exact Hjoy.
  - apply FindFirstOpenIndex_spec.
  - exact Hplain.
Qed.

(** From the empty registry, [AddDevice] and [RemoveDevice] keep every
    entry under the instance id of its device, with a joystick handle that
    is not null, a slot that is not negative, and no controller handle for
    a plain joystick. *)
Theorem registry_ok_apply_ops (ops : list registry_op) :
  registry_ok (apply_ops ops ∅).
Proof.
  assert (Hgen : forall devices, registry_ok devices -> registry_ok (apply_ops ops devices)).
  { unfold apply_ops. induction ops as [|o ops IH]; intros devices Hok; simpl; [exact Hok|].
    apply IH. destruct o as [sdl n|id]; simpl.
    - apply registry_ok_AddDevice, Hok.
    - rewrite RemoveDevice_registry. intros k d Hk.
      apply lookup_delete_Some in Hk. apply Hok, Hk. }
  apply Hgen. intros k d Hk. rewrite lookup_empty in Hk. discriminate.
Qed.

Lemma dense_AddDevice (sdl : SDL_library) (devices : devices_t) (n : Z) :
  (forall i, claimed devices i <-> 0 <= i < Z.of_nat (size devices)) ->
  forall i, claimed (AddDevice sdl devices n) i
            <-> 0 <= i < Z.of_nat (size (AddDevice sdl devices n)).
Proof.
  intros Hdense. unfold AddDevice.
  destruct (open sdl SDLInputDevice_init n) as [[|] d0]; simpl; [|assumption].
  unfold map_insert_new. simpl.
  destruct (devices !! instance_id d0) eqn:Hid; [assumption|].
  assert (Hr : FindFirstOpenIndex devices = Z.of_nat (size devices)).
  { apply FindFirstOpenIndex_eq; [lia| |].
    - intros Hc. apply Hdense in Hc. lia.
    - intros j Hj. apply Hdense. exact Hj. }
  rewrite Hr, map_size_insert_None by assumption.
  intros i. split.
  - intros (k & d & Hk & Hi). apply lookup_insert_Some in Hk.
    destruct Hk as [[_ <-]|[_ Hk]].
    + simpl in Hi. lia.
    + assert (Hc : claimed devices i) by (exists k, d; split; assumption).
      apply Hdense in Hc. lia.
  - intros Hi. destruct (Z.eq_dec i (Z.of_nat (size devices))) as [->|Hne].
    + eexists _, _. split; [apply lookup_insert_eq|reflexivity].
    + assert (Hc : claimed devices i) by (apply Hdense; lia).
      destruct Hc as (k & d & Hk & Hd). exists k, d. split; [|assumption].
      rewrite lookup_insert_ne; [assumption|congruence].
Qed.

(** As long as nothing is detached the slots have no gap: after calls of
    [AddDevice] only, from the empty registry, the slots taken are exactly
    [0], ..., [size - 1]. *)
Theorem slots_dense_without_detach (ops : list registry_op) :
  only_AddDevice ops ->
  forall i, claimed (apply_ops ops ∅) i
            <-> 0 <= i < Z.of_nat (size (apply_ops ops ∅)).
Proof.
  assert (Hgen : forall devices,
             only_AddDevice ops ->
             (forall i, claimed devices i <-> 0 <= i < Z.of_nat (size devices)) ->
             forall i, claimed (apply_ops ops devices) i
                       <-> 0 <= i < Z.of_nat (size (apply_ops ops devices))).
  { unfold apply_ops. induction ops as [|o ops IH]; intros devices Hadd Hdense; simpl;
      [exact Hdense|].
    apply IH.
    - intros o' Ho'. apply Hadd. now right.
    - destruct (Hadd o (or_introl eq_refl)) as (sdl & n & ->). simpl.
      apply dense_AddDevice, Hdense. }
  intros Hadd. apply Hgen; [exact Hadd|].
  intros i. rewrite map_size_empty. split; [|lia].
  intros (k & d & Hk & _). rewrite lookup_empty in Hk. discriminate.
Qed.

Lemma slots_dense_without_detach_witness :
  claimed (apply_ops [op_AddDevice sdl_A 0; op_AddDevice sdl_B 0; op_AddDevice sdl_C 0] ∅) 2.
Proof.
  apply (slots_dense_without_detach
           [op_AddDevice sdl_A 0; op_AddDevice sdl_B 0; op_AddDevice sdl_C 0]).
  - intros o Ho. simpl in Ho.
    destruct Ho as [<-|[<-|[<-|[]]]]; eexists _, _; reflexivity.
  - vm_compute. split; [discriminate|reflexivity].
Defined.

(** The slot a detach frees is the next one given out unless a lower one
    is free: with pairwise distinct slots, after [RemoveDevice] of a device
    the first open index is the smaller of what it was and of the slot of
    that device. *)
Theorem FindFirstOpenIndex_after_RemoveDevice (devices : devices_t) (id : Z)
  (d : SDLInputDevice) :
  devices !! id = Some d -> slots_unique devices -> 0 <= index d ->
  FindFirstOpenIndex (RemoveDevice devices id).1
  = Z.min (FindFirstOpenIndex devices) (index d).
Proof.
  intros Hid Huniq Hpos. rewrite RemoveDevice_registry.
  destruct (FindFirstOpenIndex_spec devices) as (H0 & Hfree & Hbelow).
  assert (Hclaimed : forall i, claimed (delete id devices) i
                               <-> claimed devices i /\ i <> index d).
  { intros i. split.
    - intros (k & d' & Hk & Hi). apply lookup_delete_Some in Hk.
      destruct Hk as [Hne Hk]. split; [exists k, d'; split; assumption|].
      intros ->. apply Hne. symmetry.
      apply (Huniq k id d' d); assumption.
    - intros [(k & d' & Hk & Hi) Hne]. exists k, d'. split; [|assumption].
      rewrite lookup_delete_ne; [assumption|].
      intros <-. rewrite Hid in Hk. injection Hk as <-. congruence. }
  apply FindFirstOpenIndex_eq; [lia| |].
  - rewrite Hclaimed. intros [Hc Hne].
    destruct (Z.min_spec (FindFirstOpenIndex devices) (index d)) as [[_ E]|[_ E]];
      rewrite E in *; [apply Hfree, Hc|congruence].
  - intros j Hj. apply Hclaimed. split; [apply Hbelow; lia|lia].
Qed.

Lemma FindFirstOpenIndex_after_RemoveDevice_witness :
  FindFirstOpenIndex (RemoveDevice (AddDevice sdl_B (AddDevice sdl_A ∅ 0) 0) 10).1 = 0.
Proof.
  rewrite (FindFirstOpenIndex_after_RemoveDevice
             (AddDevice sdl_B (AddDevice sdl_A ∅ 0) 0) 10
             (set_index (open sdl_A SDLInputDevice_init 0).2 0)).
  - reflexivity.
  - reflexivity.
  - apply (slots_unique_apply_ops [op_AddDevice sdl_A 0; op_AddDevice sdl_B 0] ∅).
    apply slots_unique_empty.
  - simpl. lia.
Defined.

(** * More of the discretizers *)

Lemma slots_unique_update (devices : devices_t) (k : Z) (d d' : SDLInputDevice) :
  devices !! k = Some d -> index d' = index d ->
  slots_unique devices -> slots_unique (<[k := d']> devices).
Proof.
  intros Hk Hindex Huniq k1 k2 d1 d2 H1 H2 Hi.
  apply lookup_insert_Some in H1. apply lookup_insert_Some in H2.
  destruct H1 as [[<- <-]|[Hk1 H1]], H2 as [[<- <-]|[Hk2 H2]].
  - reflexivity.
  - apply (Huniq k k2 d d2); congruence.
  - apply (Huniq k1 k d1 d); congruence.
  - apply (Huniq k1 k2 d1 d2); assumption.
Qed.

Lemma vector_set_other {A} (v : list A) (i j : Z) (x y : A) :
  vector_at v i = Some y -> j <> i ->
  vector_at (vector_set v i x) j = vector_at v j.
Proof.
  unfold vector_at, vector_set. intros Hi Hne.
  destruct (Z.ltb_spec i 0); [discriminate|].
  destruct (Z.ltb_spec j 0); [reflexivity|].
  apply list_lookup_insert_ne. lia.
Qed.

Section MoreOfHat.
Context `{SDL_joystick_h}.

Lemma hat_scan_Some (dirs : list Z) (old_state new_state s : Z) (p : bool) :
  hat_scan dirs old_state new_state = Some (s, p) ->
  In s dirs /\ Z.land old_state s <> Z.land new_state s /\
  p = bool_decide (Z.land new_state s <> 0).
Proof.
  induction dirs as [|t dirs IH]; simpl; [discriminate|].
  destruct (Z.eqb_spec (Z.land old_state t) (Z.land new_state t)) as [E|E]; simpl.
  - intros Hscan. destruct (IH Hscan) as (Hin & Hne & Hp). auto.
  - intros Hscan. injection Hscan as <- <-. repeat split; auto.
    destruct (Z.eqb_spec (Z.land new_state t) 0) as [E0|E0]; simpl.
    + rewrite bool_decide_eq_false_2; auto.
    + rewrite bool_decide_eq_true_2; auto.
Qed.

(** On a device of the registry and one of its hats, [DiscretizeHatEvent]
    gives an event exactly when the sample and the stored state differ on
    one of the four direction masks; the event then names one of the four
    masks, on which they differ, with [pressed] the bit of the sample, the
    hat of the sample and the slot of the device. *)
Theorem hat_event_iff
  (devices : devices_t) (event : SDL_JoyHatEvent) (device : SDLInputDevice) (h : Hat) :
  devices !! jhat_which event = Some device ->
  vector_at (hats device) (jhat_hat event) = Some h ->
  ((exists ev devices', DiscretizeHatEvent devices event = Returns (Some ev) devices')
   <-> (exists s, In s [SDL_HAT_UP; SDL_HAT_DOWN; SDL_HAT_LEFT; SDL_HAT_RIGHT] /\
                  Z.land (state h) s <> Z.land (jhat_value event) s)) /\
  (forall ev devices',
      DiscretizeHatEvent devices event = Returns (Some ev) devices' ->
      In (dhe_direction ev) [SDL_HAT_UP; SDL_HAT_DOWN; SDL_HAT_LEFT; SDL_HAT_RIGHT] /\
      Z.land (state h) (dhe_direction ev) <> Z.land (jhat_value event) (dhe_direction ev) /\
      dhe_pressed ev = bool_decide (Z.land (jhat_value event) (dhe_direction ev) <> 0) /\
      dhe_hat ev = jhat_hat event /\
      dhe_joystick_num ev = index device).
Proof.
  intros Hdev Hhat.
  assert (Hshape : forall ev devices',
             DiscretizeHatEvent devices event = Returns (Some ev) devices' ->
             In (dhe_direction ev) hat_directions /\
             Z.land (state h) (dhe_direction ev)
             <> Z.land (jhat_value event) (dhe_direction ev) /\
             dhe_pressed ev
             = bool_decide (Z.land (jhat_value event) (dhe_direction ev) <> 0) /\
             dhe_hat ev = jhat_hat event /\
             dhe_joystick_num ev = index device).
  { intros ev devices'. unfold DiscretizeHatEvent. rewrite Hdev, Hhat.
    destruct (state h =? jhat_value event); [discriminate|].
    destruct (hat_scan hat_directions (state h) (jhat_value event)) as [[s p]|] eqn:Hscan;
      [|discriminate].
    intros Hret. injection Hret as <- _. simpl.
    destruct (hat_scan_Some _ _ _ _ _ Hscan) as (Hin & Hne & Hp). auto. }
  split; [|exact Hshape]. split.
  - intros (ev & devices' & Hret). destruct (Hshape ev devices' Hret) as (Hin & Hne & _).
    exists (dhe_direction ev). split; assumption.
  - intros (s & Hin & Hne).
    assert (Hdiff : state h <> jhat_value event) by (intros E; apply Hne; now rewrite E).
    unfold DiscretizeHatEvent. rewrite Hdev, Hhat.
    apply Z.eqb_neq in Hdiff. rewrite Hdiff.
    destruct (hat_scan hat_directions (state h) (jhat_value event)) as [[s' p]|] eqn:Hscan.
    + eexists _, _. reflexivity.
    + exfalso. revert Hscan Hin Hne. unfold hat_directions.
      generalize [SDL_HAT_UP; SDL_HAT_DOWN; SDL_HAT_LEFT; SDL_HAT_RIGHT].
      intros dirs. induction dirs as [|t dirs IH]; simpl; [tauto|].
      destruct (Z.eqb_spec (Z.land (state h) t) (Z.land (jhat_value event) t)) as [E|E];
        simpl; [|discriminate].
      intros Hscan [->|Hin] Hne; [contradiction|]. apply IH; assumption.
Qed.

(** A sample handed to [DiscretizeHatEvent] a second time gives no event
    and changes nothing, whatever the first call returned. *)
Theorem hat_sample_twice (devices devices' : devices_t) (event : SDL_JoyHatEvent)
  (r : option DiscreteHatEvent) :
  DiscretizeHatEvent devices event = Returns r devices' ->
  DiscretizeHatEvent devices' event = Returns None devices'.
Proof.
  destruct r as [ev|]; [apply hat_repeated_sample|].
  intros Hret. assert (Hsame : devices' = devices).
  { revert Hret. unfold DiscretizeHatEvent.
    destruct (devices !! jhat_which event) as [device|]; [|discriminate].
    destruct (vector_at (hats device) (jhat_hat event)) as [h|]; [|discriminate].
    destruct (state h =? jhat_value event); [congruence|].
    destruct (hat_scan hat_directions (state h) (jhat_value event)) as [[s p]|];
      [discriminate|congruence]. }
  subst devices'. exact Hret.
Qed.

(** What a call of [DiscretizeHatEvent] that returns leaves alone: the
    other devices, the number of devices, and of the device itself all but
    the state of that one hat, the slot and the number of hats included;
    distinct slots stay distinct. *)
Theorem hat_frame (devices devices' : devices_t) (event : SDL_JoyHatEvent)
  (r : option DiscreteHatEvent) :
  DiscretizeHatEvent devices event = Returns r devices' ->
  (forall k, k <> jhat_which event -> devices' !! k = devices !! k) /\
  size devices' = size devices /\
  (slots_unique devices -> slots_unique devices') /\
  (exists device device',
      devices !! jhat_which event = Some device /\
      devices' !! jhat_which event = Some device' /\
      index device' = index device /\
      instance_id device' = instance_id device /\
      is_controller device' = is_controller device /\
      controller device' = controller device /\
      joystick device' = joystick device /\
      axes device' = axes device /\
      buttons device' = buttons device /\
      length (hats device') = length (hats device) /\
      (forall i, i <> jhat_hat event ->
                 vector_at (hats device') i = vector_at (hats device) i)).
Proof.
  unfold DiscretizeHatEvent.
  destruct (devices !! jhat_which event) as [device|] eqn:Hdev; [|discriminate].
  destruct (vector_at (hats device) (jhat_hat event)) as [h|] eqn:Hhat; [|discriminate].
  assert (Hsame : Returns r devices' = Returns r devices ->
                  (forall k, k <> jhat_which event -> devices' !! k = devices !! k) /\
                  size devices' = size devices /\
                  (slots_unique devices -> slots_unique devices') /\
                  (exists device0 device',
                      Some device = Some device0 /\
                      devices' !! jhat_which event = Some device' /\
                      index device' = index device0 /\
                      instance_id device' = instance_id device0 /\
                      is_controller device' = is_controller device0 /\
                      controller device' = controller device0 /\
                      joystick device' = joystick device0 /\
                      axes device' = axes device0 /\
                      buttons device' = buttons device0 /\
                      length (hats device') = length (hats device0) /\
                      (forall i, i <> jhat_hat event ->
                                 vector_at (hats device') i = vector_at (hats device0) i))).
  { intros E. injection E as ->. repeat split; auto.
    exists device, device. repeat split; auto. }
  destruct (state h =? jhat_value event); [intros E; apply Hsame; congruence|].
  destruct (hat_scan hat_directions (state h) (jhat_value event)) as [[s p]|];
    [|intros E; apply Hsame; congruence].
  intros Hret. injection Hret as _ <-. split; [|split; [|split]].
  - intros k Hk. apply lookup_insert_ne. congruence.
  - apply map_size_insert_Some. eexists. exact Hdev.
  - apply (slots_unique_update devices _ device); [assumption|reflexivity].
  - exists device, (store_hat device (jhat_hat event) (jhat_value event)).
    rewrite lookup_insert_eq. repeat split.
    + unfold store_hat, vector_set. simpl. apply length_insert.
    + intros i Hi. unfold store_hat. simpl.
      apply (vector_set_other _ _ _ _ h); assumption.
Qed.

End MoreOfHat.

Lemma hat_event_iff_witness :
  exists ev devices',
    DiscretizeHatEvent (H := SDL2_joystick_h) {[5 := stick5]} (mkJHat 5 0 12)
    = Returns (Some ev) devices'.
Proof.
  assert (Hdev : ({[5 := stick5]} : devices_t) !! 5 = Some stick5) by reflexivity.
  assert (Hhat : vector_at (hats stick5) 0 = Some (mkHat 0)) by reflexivity.
  destruct (hat_event_iff (H := SDL2_joystick_h)
              {[5 := stick5]} (mkJHat 5 0 12) stick5 (mkHat 0) Hdev Hhat) as [[_ Hev] _].
  apply Hev. exists 4. split; [simpl; tauto|]. vm_compute. discriminate.
Defined.

Lemma hat_sample_twice_witness :
  DiscretizeHatEvent (H := SDL2_joystick_h)
    (<[5 := store_hat stick5 0 9]> {[5 := stick5]}) (mkJHat 5 0 9)
  = Returns None (<[5 := store_hat stick5 0 9]> {[5 := stick5]}).
Proof.
  apply (hat_sample_twice (H := SDL2_joystick_h) {[5 := stick5]} _ (mkJHat 5 0 9)
           (Some (mkDHE 0 0 1 true))).
  reflexivity.
Defined.

Lemma hat_frame_witness :
  size (<[5 := store_hat stick5 0 9]> ({[5 := stick5; 7 := pad7]} : devices_t))
  = size ({[5 := stick5; 7 := pad7]} : devices_t).
Proof.
  destruct (hat_frame (H := SDL2_joystick_h) {[5 := stick5; 7 := pad7]}
              (<[5 := store_hat stick5 0 9]> {[5 := stick5; 7 := pad7]})
              (mkJHat 5 0 9) (Some (mkDHE 0 0 1 true))) as (_ & Hsize & _).
  - vm_compute. reflexivity.
  - exact Hsize.
Defined.

(** The zones of an axis whose rest sample is an [int16_t]: the rest sample
    is neutral, [pressed] is [-1], [0] or [1] and does not decrease with
    the sample, and the two ends of the [int16_t] range are pressed unless
    the axis rests in that very end. *)
Theorem pressed_zones (center v1 v2 : Z) :
  -32768 <= center <= 32767 ->
  pressed center center = 0 /\
  (pressed center v1 = -1 \/ pressed center v1 = 0 \/ pressed center v1 = 1) /\
  (v1 <= v2 -> pressed center v1 <= pressed center v2) /\
  (center < 32767 -> pressed center 32767 = 1) /\
  (-32768 < center -> pressed center (-32768) = -1) /\
  pressed 32767 32767 = 0 /\ pressed (-32768) (-32768) = 0.
Proof.
  intros Hc. destruct (pressed_thresholds center Hc) as (Ehi & Elo & Hhi & Hlo).
  assert (Hhi' : center < 32767 -> center + (32767 - center) ÷ 3 < 32767).
  { intros Hlt. rewrite Ehi. Z.to_euclidean_division_equations. lia. }
  assert (Hlo' : -32768 < center -> -32768 < center - (center + 32768) ÷ 3).
  { intros Hlt. rewrite Elo. Z.to_euclidean_division_equations. lia. }
  unfold pressed.
  repeat split; try reflexivity.
  - destruct (Z.gtb_spec center (center + (32767 - center) ÷ 3)); [lia|].
    destruct (Z.ltb_spec center (center - (center + 32768) ÷ 3)); [lia|reflexivity].
  - destruct (v1 >? center + (32767 - center) ÷ 3); [tauto|].
    destruct (v1 <? center - (center + 32768) ÷ 3); tauto.
  - intros Hle.
    destruct (Z.gtb_spec v1 (center + (32767 - center) ÷ 3));
      destruct (Z.gtb_spec v2 (center + (32767 - center) ÷ 3));
      destruct (Z.ltb_spec v1 (center - (center + 32768) ÷ 3));
      destruct (Z.ltb_spec v2 (center - (center + 32768) ÷ 3)); lia.
  - intros Hlt. specialize (Hhi' Hlt).
    destruct (Z.gtb_spec 32767 (center + (32767 - center) ÷ 3)); [reflexivity|lia].
  - intros Hlt. specialize (Hlo' Hlt).
    destruct (Z.gtb_spec (-32768) (center + (32767 - center) ÷ 3)); [lia|].
    destruct (Z.ltb_spec (-32768) (center - (center + 32768) ÷ 3)); [reflexivity|lia].
Qed.

Lemma pressed_zones_witness :
  pressed 100 100 = 0 /\ pressed 100 32767 = 1 /\ pressed 100 (-32768) = -1.
Proof.
  destruct (pressed_zones 100 0 0) as (Hrest & _ & _ & Hmax & Hmin & _); [lia|].
  split; [exact Hrest|]. split; [apply Hmax; lia|apply Hmin; lia].
Defined.

(** On a device of the registry and one of its axes, a call of
    [DiscretizeJoyAxisEvent] returns, stores the sample, and gives an event
    exactly when the zone changes. The event is never for direction 0: a
    press names the zone entered, also when the sample comes straight from
    the opposite zone, for which there is then no release; a release names
    the zone left for the neutral one. *)
Theorem axis_event_shape
  (devices : devices_t) (event : SDL_JoyAxisEvent) (device : SDLInputDevice) (a : Axis) :
  devices !! jaxis_which event = Some device ->
  vector_at (axes device) (jaxis_axis event) = Some a ->
  let was := pressed (initial a) (last a) in
  let is_ := pressed (initial a) (jaxis_value event) in
  exists r,
    DiscretizeJoyAxisEvent devices event
    = Returns r (<[jaxis_which event
                   := store_axis device (jaxis_axis event) (jaxis_value event) a]> devices) /\
    (r = None <-> was = is_) /\
    (forall ev, r = Some ev ->
       (dae_direction ev = 1 \/ dae_direction ev = -1) /\
       ((dae_pressed ev = 1 /\ dae_direction ev = is_) \/
        (dae_pressed ev = 0 /\ is_ = 0 /\ dae_direction ev = was)) /\
       dae_axis ev = jaxis_axis event /\
       dae_joystick_num ev = index device).
Proof.
  intros Hdev Hax was is_.
  assert (Hwas : was = -1 \/ was = 0 \/ was = 1).
  { unfold was, pressed. destruct (_ >? _); [tauto|]. destruct (_ <? _); tauto. }
  assert (His : is_ = -1 \/ is_ = 0 \/ is_ = 1).
  { unfold is_, pressed. destruct (_ >? _); [tauto|]. destruct (_ <? _); tauto. }
  unfold DiscretizeJoyAxisEvent. rewrite Hdev, Hax. fold was is_.
  destruct (Z.eqb_spec was is_) as [E|E].
  - eexists. split; [reflexivity|]. split; [tauto|]. intros ev Hev. discriminate.
  - eexists. split; [reflexivity|]. split; [split; [discriminate|contradiction]|].
    intros ev Hev. injection Hev as <-. simpl.
    destruct (Z.eqb_spec is_ 0) as [E0|E0]; repeat split; try lia.
Qed.

Lemma axis_event_shape_witness :
  exists r,
    DiscretizeJoyAxisEvent {[5 := store_axis stick5 0 20000 (mkAxis 0 0)]}
                           (mkJAxis 5 0 (-20000))
    = Returns r (<[5 := store_axis (store_axis stick5 0 20000 (mkAxis 0 0)) 0 (-20000)
                                    (mkAxis 0 20000)]>
                   {[5 := store_axis stick5 0 20000 (mkAxis 0 0)]}) /\
    (forall ev, r = Some ev -> dae_pressed ev = 1 /\ dae_direction ev = -1).
Proof.
  assert (Hdev : ({[5 := store_axis stick5 0 20000 (mkAxis 0 0)]} : devices_t) !! 5
                 = Some (store_axis stick5 0 20000 (mkAxis 0 0))) by reflexivity.
  assert (Hax : vector_at (axes (store_axis stick5 0 20000 (mkAxis 0 0))) 0
                = Some (mkAxis 0 20000)) by reflexivity.
  destruct (axis_event_shape _ (mkJAxis 5 0 (-20000)) _ _ Hdev Hax)
    as (r & Hret & _ & Hshape).
  exists r. split; [exact Hret|]. intros ev Hev.
  destruct (Hshape ev Hev) as (_ & [[Hp Hd]|(_ & Hz & _)] & _).
  - split; [exact Hp|]. rewrite Hd. reflexivity.
  - vm_compute in Hz. discriminate.
Defined.

(** A sample handed to [DiscretizeJoyAxisEvent] a second time gives no
    event and changes nothing, whatever the first call returned. *)
Theorem axis_sample_twice (devices devices' : devices_t) (event : SDL_JoyAxisEvent)
  (r : option DiscreteAxisEvent) :
  DiscretizeJoyAxisEvent devices event = Returns r devices' ->
  DiscretizeJoyAxisEvent devices' event = Returns None devices'.
Proof.
  unfold DiscretizeJoyAxisEvent at 1.
  destruct (devices !! jaxis_which event) as [device|] eqn:Hdev; [|discriminate].
  destruct (vector_at (axes device) (jaxis_axis event)) as [a|] eqn:Hax; [|discriminate].
  intros Hret.
  assert (Hdevices' : devices' = <[jaxis_which event
                         := store_axis device (jaxis_axis event) (jaxis_value event) a]>
                                   devices).
  { destruct (_ =? _) in Hret; injection Hret as _ <-; reflexivity. }
  subst devices'. unfold DiscretizeJoyAxisEvent.
  rewrite lookup_insert_eq, (store_axis_last _ _ _ _ Hax). simpl.
  rewrite Z.eqb_refl, insert_insert_eq. do 2 f_equal.
  unfold store_axis, vector_set. simpl. rewrite list_insert_insert_eq. reflexivity.
Qed.

Lemma axis_sample_twice_witness :
  DiscretizeJoyAxisEvent (<[5 := store_axis stick5 0 20000 (mkAxis 0 0)]> {[5 := stick5]})
                         (mkJAxis 5 0 20000)
  = Returns None (<[5 := store_axis stick5 0 20000 (mkAxis 0 0)]> {[5 := stick5]}).
Proof.
  apply (axis_sample_twice {[5 := stick5]} _ (mkJAxis 5 0 20000) (Some (mkDAE 0 0 1 1))).
  reflexivity.
Defined.

(** What a call of [DiscretizeJoyAxisEvent] that returns leaves alone: the
    other devices, the number of devices, and of the device itself all but
    the last sample of that one axis, the slot, the rest sample of the axis
    and the number of axes included; distinct slots stay distinct. *)
Theorem axis_frame (devices devices' : devices_t) (event : SDL_JoyAxisEvent)
  (r : option DiscreteAxisEvent) :
  DiscretizeJoyAxisEvent devices event = Returns r devices' ->
  (forall k, k <> jaxis_which event -> devices' !! k = devices !! k) /\
  size devices' = size devices /\
  (slots_unique devices -> slots_unique devices') /\
  (exists device device' a,
      devices !! jaxis_which event = Some device /\
      devices' !! jaxis_which event = Some device' /\
      index device' = index device /\
      instance_id device' = instance_id device /\
      is_controller device' = is_controller device /\
      controller device' = controller device /\
      joystick device' = joystick device /\
      hats device' = hats device /\
      buttons device' = buttons device /\
      length (axes device') = length (axes device) /\
      vector_at (axes device) (jaxis_axis event) = Some a /\
      vector_at (axes device') (jaxis_axis event)
      = Some (mkAxis (initial a) (jaxis_value event)) /\
      (forall i, i <> jaxis_axis event ->
                 vector_at (axes device') i = vector_at (axes device) i)).
Proof.
  unfold DiscretizeJoyAxisEvent.
  destruct (devices !! jaxis_which event) as [device|] eqn:Hdev; [|discriminate].
  destruct (vector_at (axes device) (jaxis_axis event)) as [a|] eqn:Hax; [|discriminate].
  intros Hret.
  assert (Hdevices' : devices' = <[jaxis_which event
                         := store_axis device (jaxis_axis event) (jaxis_value event) a]>
                                   devices).
  { destruct (_ =? _) in Hret; injection Hret as _ <-; reflexivity. }
  subst devices'. clear Hret. split; [|split; [|split]].
  - intros k Hk. apply lookup_insert_ne. congruence.
  - apply map_size_insert_Some. eexists. exact Hdev.
  - apply (slots_unique_update devices _ device); [assumption|reflexivity].
  - exists device, (store_axis device (jaxis_axis event) (jaxis_value event) a), a.
    rewrite lookup_insert_eq. repeat split.
    + unfold store_axis, vector_set. simpl. apply length_insert.
    + exact Hax.
    + apply store_axis_last. exact Hax.
    + intros i Hi. unfold store_axis. simpl.
      apply (vector_set_other _ _ _ _ a); assumption.
Qed.

Lemma axis_frame_witness :
  size (<[5 := store_axis stick5 0 20000 (mkAxis 0 0)]> ({[5 := stick5; 7 := pad7]} : devices_t))
  = size ({[5 := stick5; 7 := pad7]} : devices_t).
Proof.
  destruct (axis_frame {[5 := stick5; 7 := pad7]}
              (<[5 := store_axis stick5 0 20000 (mkAxis 0 0)]> {[5 := stick5; 7 := pad7]})
              (mkJAxis 5 0 20000) (Some (mkDAE 0 0 1 1))) as (_ & Hsize & _).
  - vm_compute. reflexivity.
  - exact Hsize.
Defined.

(** * More of the worker loop *)

(** The calls of the wait: [SDL_WaitEvent] when no deadline is pending;
    with a deadline pending [SDL_WaitEventTimeout], whose time-out is not
    negative and fits an [int], and the stop calls when nothing came. *)
Lemma wait_phase_calls (s : surroundings) (w : worker) (c : call) :
  In c (wait_phase s w).2 ->
  (c = SDL_WaitEvent /\ w_rumble_end w = None) \/
  (exists timeout, c = SDL_WaitEventTimeout timeout /\ 0 <= timeout < 2 ^ 31 /\
                   is_Some (w_rumble_end w)) \/
  (exists h, c = SDL_GameControllerRumble h 0 0 0 /\ is_Some (w_rumble_end w) /\
             waited s = None).
Proof.
  unfold wait_phase.
  destruct (w_rumble_end w) as [rumble_end|] eqn:Hend.
  - assert (Hrange : 0 <= Z.max (to_int (to_Uint32 (rumble_end - SDL_GetTicks s))) 0 < 2 ^ 31).
    { unfold to_int. change (2 ^ 31) with 2147483648. change (2 ^ 32) with 4294967296.
      pose proof (Z.mod_pos_bound
                    (to_Uint32 (rumble_end - SDL_GetTicks s) + 2147483648) 4294967296).
      lia. }
    destruct (waited s) as [ev|] eqn:Hev; simpl.
    + intros [<-|[]]. right. left. eexists. split; [reflexivity|]. split; [exact Hrange|].
      eexists; reflexivity.
    + intros [<-|Hin].
      * right. left. eexists. split; [reflexivity|]. split; [exact Hrange|].
        eexists; reflexivity.
      * right. right. unfold rumble_all in Hin. apply in_map_iff in Hin.
        destruct Hin as (d & <- & _). eexists. split; [reflexivity|].
        split; [eexists; reflexivity|reflexivity].
  - destruct (waited s); simpl; intros [<-|[]]; left; split; reflexivity.
Qed.

(** The calls of the [switch], by the event it is entered with. *)
Lemma dispatch_calls (wid rid : Z) (s : surroundings) (w : worker) (c : call) :
  In c (dispatch wid rid s w).2 ->
  (exists n, c = emit_event (w_e w) n /\ joystick_event (w_e w) = true) \/
  (closes_handle c = true /\ exists which, w_e w = SDL_JOYDEVICEREMOVED which) \/
  (c = cv_notify_one /\ w_e w = SDL_other wid) \/
  (rumbles c = true /\ w_e w = SDL_other rid).
Proof.
  unfold dispatch. destruct (w_e w) as [j|j|which b|which b|which|which| |type] eqn:He; simpl.
  - intros [<-|[]]. left. eexists. split; reflexivity.
  - intros [<-|[]]. left. eexists. split; reflexivity.
  - destruct (map_subscript (w_devices w) which). simpl.
    intros [<-|[]]. left. eexists. split; reflexivity.
  - destruct (map_subscript (w_devices w) which). simpl.
    intros [<-|[]]. left. eexists. split; reflexivity.
  - intros [<-|[]]. left. eexists. split; reflexivity.
  - unfold RemoveDevice. destruct (w_devices w !! which) as [d|]; simpl.
    + intros [<-|[<-|[]]].
      * right. left. split; [destruct (is_controller d); reflexivity|].
        eexists; reflexivity.
      * left. eexists. split; reflexivity.
    + intros [<-|[]]. left. eexists. split; reflexivity.
  - intros [].
  - destruct (Z.eqb_spec type wid) as [->|Hw]; simpl.
    + intros [<-|[]]. right. right. left. split; reflexivity.
    + destruct (Z.eqb_spec type rid) as [->|Hr]; simpl; [|intros []].
      destruct (rumble_data s) as [[low high] duration]. simpl.
      unfold rumble_all. intros Hin. apply in_map_iff in Hin.
      destruct Hin as (d & <- & _). right. right. right. split; reflexivity.
Qed.

Lemma loop_body_calls (wid rid : Z) (s : surroundings) (w : worker) (c : call) :
  In c (loop_body wid rid s w).2 ->
  In c (wait_phase s w).2 \/ In c (dispatch wid rid s (wait_phase s w).1).2.
Proof.
  unfold loop_body. destruct (wait_phase s w) as [w1 calls1]. simpl.
  destruct (dispatch wid rid s w1) as [w2 calls2]. simpl. apply in_app_or.
Qed.

Lemma loop_body_worker (wid rid : Z) (s : surroundings) (w : worker) :
  (loop_body wid rid s w).1 = (dispatch wid rid s (wait_phase s w).1).1.
Proof.
  unfold loop_body. destruct (wait_phase s w) as [w1 calls1]. simpl.
  destruct (dispatch wid rid s w1) as [w2 calls2]. reflexivity.
Qed.

Lemma dispatch_keeps_e (wid rid : Z) (s : surroundings) (w : worker) :
  w_e (dispatch wid rid s w).1 = w_e w.
Proof.
  unfold dispatch. destruct (w_e w) eqn:He; simpl; try reflexivity; try exact He.
  - destruct (map_subscript (w_devices w) which); reflexivity.
  - destruct (map_subscript (w_devices w) which); reflexivity.
  - destruct (RemoveDevice (w_devices w) which); reflexivity.
  - destruct (type =? wid); simpl; [reflexivity|].
    destruct (type =? rid); simpl; [|exact He].
    destruct (rumble_data s) as [[low high] duration]. reflexivity.
Qed.

Lemma wait_phase_e (s : surroundings) (w : worker) :
  w_e (wait_phase s w).1 = default (w_e w) (waited s).
Proof.
  unfold wait_phase. destruct (w_rumble_end w), (waited s); reflexivity.
Qed.

(** An invariant of the worker carries over the loop, and with it what it
    says of the calls of each iteration. *)
Lemma while_run_invariant (wid rid : Z) (I : worker -> Prop) (P : call -> Prop)
  (ss : list surroundings) :
  (forall s w, In s ss -> I w ->
               I (loop_body wid rid s w).1 /\
               (forall c, In c (loop_body wid rid s w).2 -> P c)) ->
  forall w, I w ->
            I (while_run wid rid ss w).1 /\
            (forall c, In c (while_run wid rid ss w).2 -> P c).
Proof.
  induction ss as [|s ss IH]; intros Hstep w Hw; simpl.
  - split; [exact Hw|intros c []].
  - destruct (w_run w); [|split; [exact Hw|intros c []]].
    destruct (Hstep s w (or_introl eq_refl) Hw) as [Hw1 Hcalls1].
    destruct (loop_body wid rid s w) as [w1 calls1]. simpl in *.
    destruct (IH (fun s' w' Hs' => Hstep s' w' (or_intror Hs')) w1 Hw1) as [Hw2 Hcalls2].
    destruct (while_run wid rid ss w1) as [w2 calls2]. simpl in *.
    split; [exact Hw2|]. intros c Hc. apply in_app_or in Hc.
    destruct Hc; auto.
Qed.

Lemma run_calls (wid rid : Z) (devices : devices_t) (ss : list surroundings) (c : call) :
  In c (run wid rid devices ss).2 ->
  c = SDL_Init \/ c = SDL_Quit \/
  In c (while_run wid rid ss (mkWorker devices true (SDL_other 0) None)).2.
Proof.
  unfold run.
  destruct (while_run wid rid ss (mkWorker devices true (SDL_other 0) None)) as [w calls].
  simpl. intros [<-|Hin]; [tauto|]. apply in_app_or in Hin.
  destruct Hin as [Hin|Hin]; [tauto|].
  destruct (w_run w); simpl in Hin; [contradiction|]. destruct Hin as [<-|[]]. tauto.
Qed.

(** No call of [SDL_WaitEventTimeout] that [run] makes has a negative
    time-out, or one that does not fit an [int]. *)
Theorem run_timeouts_in_range (wid rid : Z) (devices : devices_t)
  (ss : list surroundings) (timeout : Z) :
  In (SDL_WaitEventTimeout timeout) (run wid rid devices ss).2 ->
  0 <= timeout < 2 ^ 31.
Proof.
  intros Hin. apply run_calls in Hin.
  destruct Hin as [Hc|[Hc|Hin]]; [discriminate|discriminate|].
  destruct (while_run_invariant wid rid (fun _ => True)
              (fun c => forall t, c = SDL_WaitEventTimeout t -> 0 <= t < 2 ^ 31) ss)
    with (w := mkWorker devices true (SDL_other 0) None) as [_ Hcalls]; [|exact I|].
  - intros s w _ _. split; [exact I|]. intros c Hc t ->.
    apply loop_body_calls in Hc. destruct Hc as [Hc|Hc].
    + apply wait_phase_calls in Hc.
      destruct Hc as [[Hc _]|[(t' & Hc & Hrange & _)|(h & Hc & _)]]; try discriminate.
      injection Hc as ->. exact Hrange.
    + apply dispatch_calls in Hc.
      destruct Hc as [(n & Hc & _)|[[Hc _]|[[Hc _]|[Hc _]]]]; discriminate.
  - apply (Hcalls _ Hin). reflexivity.
Qed.

Lemma run_timeouts_in_range_witness : 0 <= 40 < 2 ^ 31.
Proof.
  apply (run_timeouts_in_range work_id rumble_id {[7 := pad7]}
           [delivers (SDL_other rumble_id) 1000; delivers (SDL_JOYBUTTONDOWN 7 0) 1010]).
  vm_compute. tauto.
Defined.

(** Without a rumble request there is no rumble: when the id of the rumble
    event is not 0, the type of the zeroed [SDL_Event] the loop starts
    with, and no wait delivers that event, [run] makes no call of
    [SDL_GameControllerRumble] and of [SDL_WaitEventTimeout], and no
    deadline is pending in the end. *)
Theorem run_no_rumble_without_request (wid rid : Z) (devices : devices_t)
  (ss : list surroundings) :
  rid <> 0 ->
  (forall s, In s ss -> waited s <> Some (SDL_other rid)) ->
  w_rumble_end (run wid rid devices ss).1 = None /\
  (forall c, In c (run wid rid devices ss).2 ->
             rumbles c = false /\ forall t, c <> SDL_WaitEventTimeout t).
Proof.
  intros Hrid Hnone.
  destruct (while_run_invariant wid rid
              (fun w => w_rumble_end w = None /\ w_e w <> SDL_other rid)
              (fun c => rumbles c = false /\ forall t, c <> SDL_WaitEventTimeout t) ss)
    with (w := mkWorker devices true (SDL_other 0) None) as [[Hend _] Hcalls].
  - intros s w Hs [Hend He].
    assert (He1 : w_e (wait_phase s w).1 <> SDL_other rid).
    { rewrite wait_phase_e. destruct (waited s) as [ev|] eqn:Hev; simpl; [|exact He].
      intros ->. apply (Hnone s Hs). exact Hev. }
    assert (Hend1 : w_rumble_end (wait_phase s w).1 = None).
    { unfold wait_phase. rewrite Hend. destruct (waited s); [reflexivity|exact Hend]. }
    split; [split|].
    + rewrite loop_body_worker. revert He1 Hend1.
      generalize (wait_phase s w).1. intros w1 He1 Hend1.
      unfold dispatch. destruct (w_e w1) eqn:E; simpl; try exact Hend1.
      * destruct (map_subscript (w_devices w1) which); exact Hend1.
      * destruct (map_subscript (w_devices w1) which); exact Hend1.
      * destruct (RemoveDevice (w_devices w1) which); exact Hend1.
      * destruct (type =? wid); simpl; [exact Hend1|].
        destruct (Z.eqb_spec type rid) as [->|Hne]; simpl; [congruence|exact Hend1].
    + rewrite loop_body_worker, dispatch_keeps_e. exact He1.
    + intros c Hc. apply loop_body_calls in Hc. destruct Hc as [Hc|Hc].
      * apply wait_phase_calls in Hc.
        destruct Hc as [[-> _]|[(t' & _ & _ & [x Hx])|(h & _ & [x Hx] & _)]];
          [|congruence|congruence].
        split; [reflexivity|discriminate].
      * apply dispatch_calls in Hc.
        destruct Hc as [(n & -> & _)|[[Hc _]|[[-> _]|[_ Hc]]]].
        -- split; [reflexivity|discriminate].
        -- destruct c; try discriminate; split; try reflexivity; discriminate.
        -- split; [reflexivity|discriminate].
        -- contradiction.
  - split; [reflexivity|]. simpl. congruence.
  - split.
    + unfold run.
      destruct (while_run wid rid ss (mkWorker devices true (SDL_other 0) None)).
      exact Hend.
    + intros c Hc. apply run_calls in Hc.
      destruct Hc as [->|[->|Hc]]; [split; [reflexivity|discriminate]..|].
      apply Hcalls, Hc.
Qed.

Lemma run_no_rumble_without_request_witness :
  w_rumble_end (run work_id rumble_id {[7 := pad7]}
                    [delivers (SDL_JOYBUTTONDOWN 7 0) 0; times_out 10; delivers SDL_QUIT 20]).1
  = None.
Proof.
  apply (run_no_rumble_without_request work_id rumble_id {[7 := pad7]}
           [delivers (SDL_JOYBUTTONDOWN 7 0) 0; times_out 10; delivers SDL_QUIT 20]).
  - vm_compute. discriminate.
  - intros s Hs. simpl in Hs.
    destruct Hs as [<-|[<-|[<-|[]]]]; simpl; discriminate.
Defined.

(** No handle is closed but for a detach event: when no wait delivers
    [SDL_JOYDEVICEREMOVED], [run] makes no call of [SDL_JoystickClose] and
    of [SDL_GameControllerClose], whatever else arrives, the shutdown
    event included. *)
Theorem run_closes_only_on_detach (wid rid : Z) (devices : devices_t)
  (ss : list surroundings) :
  (forall s which, In s ss -> waited s <> Some (SDL_JOYDEVICEREMOVED which)) ->
  forall c, In c (run wid rid devices ss).2 -> closes_handle c = false.
Proof.
  intros Hnone.
  destruct (while_run_invariant wid rid
              (fun w => forall which, w_e w <> SDL_JOYDEVICEREMOVED which)
              (fun c => closes_handle c = false) ss)
    with (w := mkWorker devices true (SDL_other 0) None) as [_ Hcalls].
  - intros s w Hs He.
    assert (He1 : forall which, w_e (wait_phase s w).1 <> SDL_JOYDEVICEREMOVED which).
    { intros which. rewrite wait_phase_e.
      destruct (waited s) as [ev|] eqn:Hev; simpl; [|apply He].
      intros ->. apply (Hnone s which Hs). exact Hev. }
    split.
    + intros which. rewrite loop_body_worker, dispatch_keeps_e. apply He1.
    + intros c Hc. apply loop_body_calls in Hc. destruct Hc as [Hc|Hc].
      * apply wait_phase_calls in Hc.
        destruct Hc as [[-> _]|[(t' & -> & _)|(h & -> & _)]]; reflexivity.
      * apply dispatch_calls in Hc.
        destruct Hc as [(n & -> & _)|[[_ [which Hc]]|[[-> _]|[Hc _]]]];
          try reflexivity.
        -- exfalso. exact (He1 which Hc).
        -- destruct c; try discriminate; reflexivity.
  - simpl. discriminate.
  - intros c Hc. apply run_calls in Hc.
    destruct Hc as [->|[->|Hc]]; [reflexivity..|]. apply Hcalls, Hc.
Qed.

Lemma run_closes_only_on_detach_witness :
  closes_handle SDL_Quit = false.
Proof.
  apply (run_closes_only_on_detach work_id rumble_id {[7 := pad7; 5 := stick5]}
           [delivers (SDL_JOYBUTTONDOWN 7 0) 0; delivers SDL_QUIT 20]).
  - intros s which Hs. simpl in Hs.
    destruct Hs as [<-|[<-|[]]]; simpl; discriminate.
  - vm_compute. tauto.
Defined.

(** The slot a button event is handed on with. For an instance id of the
    registry it is the slot of the device, and the registry stays as it is.
    For an instance id that is not in the registry, [devices[...]] adds a
    value-initialized entry under that id, and the slot handed on is 0. *)
Theorem button_event_slot (wid rid : Z) (s : surroundings) (w : worker)
  (which button : Z) :
  w_e w = SDL_JOYBUTTONDOWN which button \/ w_e w = SDL_JOYBUTTONUP which button ->
  (forall d, w_devices w !! which = Some d ->
             dispatch wid rid s w = (w, [emit_event (w_e w) (index d)])) /\
  (w_devices w !! which = None ->
   dispatch wid rid s w
   = (mkWorker (<[which := SDLInputDevice_init]> (w_devices w)) (w_run w) (w_e w)
               (w_rumble_end w),
      [emit_event (w_e w) 0])).
Proof.
  intros He. split.
  - intros d Hd. unfold dispatch, map_subscript.
    destruct He as [He|He]; rewrite He, Hd; destruct w; simpl in *; subst; reflexivity.
  - intros Hd. unfold dispatch, map_subscript.
    destruct He as [He|He]; rewrite He, Hd; reflexivity.
Qed.

Lemma button_event_slot_witness :
  dispatch work_id rumble_id (delivers (SDL_JOYBUTTONUP 7 2) 0)
           (mkWorker {[7 := set_index pad7 3]} true (SDL_JOYBUTTONUP 7 2) None)
  = (mkWorker {[7 := set_index pad7 3]} true (SDL_JOYBUTTONUP 7 2) None,
     [emit_event (SDL_JOYBUTTONUP 7 2) 3]).
Proof.
  destruct (button_event_slot work_id rumble_id (delivers (SDL_JOYBUTTONUP 7 2) 0)
              (mkWorker {[7 := set_index pad7 3]} true (SDL_JOYBUTTONUP 7 2) None) 7 2)
    as [Hknown _].
  - right. reflexivity.
  - apply (Hknown (set_index pad7 3)). reflexivity.
Defined.

(** What the entry of a button event of an unknown instance id does to the
    registry: it has no handle, so that a later [RemoveDevice] of the id
    calls [SDL_JoystickClose] on the null pointer; and when slot 0 is
    taken, two entries now have slot 0. *)
Theorem button_event_unknown_id (wid rid : Z) (s : surroundings) (w : worker)
  (which button : Z) :
  w_e w = SDL_JOYBUTTONDOWN which button \/ w_e w = SDL_JOYBUTTONUP which button ->
  w_devices w !! which = None ->
  let devices' := w_devices (dispatch wid rid s w).1 in
  devices' !! which = Some SDLInputDevice_init /\
  size devices' = S (size (w_devices w)) /\
  ~ registry_ok devices' /\
  RemoveDevice devices' which = (w_devices w, [SDL_JoystickClose nullptr]) /\
  (claimed (w_devices w) 0 -> ~ slots_unique devices').
Proof.
  intros He Hnone.
  destruct (button_event_slot wid rid s w which button He) as [_ Hunknown].
  rewrite (Hunknown Hnone). simpl.
  split; [apply lookup_insert_eq|].
  split; [apply map_size_insert_None, Hnone|].
  split; [|split].
  - intros Hok. destruct (Hok which SDLInputDevice_init (lookup_insert_eq _ _ _))
      as (_ & Hjoy & _). apply Hjoy. reflexivity.
  - unfold RemoveDevice. rewrite lookup_insert_eq. simpl.
    rewrite delete_insert_eq, delete_id by assumption. reflexivity.
  - intros (k & d & Hk & Hi) Huniq.
    assert (Hne : k <> which) by congruence.
    apply Hne. apply (Huniq k which d SDLInputDevice_init).
    + rewrite lookup_insert_ne; [assumption|congruence].
    + apply lookup_insert_eq.
    + rewrite Hi. reflexivity.
Qed.

Lemma button_event_unknown_id_witness :
  ~ slots_unique
      (w_devices (dispatch work_id rumble_id (delivers (SDL_JOYBUTTONDOWN 6 0) 0)
                           (mkWorker {[5 := stick5]} true (SDL_JOYBUTTONDOWN 6 0) None)).1).
Proof.
  destruct (button_event_unknown_id work_id rumble_id (delivers (SDL_JOYBUTTONDOWN 6 0) 0)
              (mkWorker {[5 := stick5]} true (SDL_JOYBUTTONDOWN 6 0) None) 6 0)
    as (_ & _ & _ & _ & Hnot).
  - left. reflexivity.
  - reflexivity.
  - apply Hnot. exists 5, stick5. split; reflexivity.
Defined.

(** Every joystick event a wait delivers is handed on once, by the last
    call of its iteration: axis, hat, attach and detach events with 0, and
    attach events also when the device does not open. The shutdown event
    and the other events are not handed on. *)
Theorem delivered_event_forwarded (wid rid : Z) (s : surroundings) (w : worker)
  (ev : SDL_Event) :
  waited s = Some ev ->
  (joystick_event ev = true ->
   exists calls n,
     (loop_body wid rid s w).2 = calls ++ [emit_event ev n] /\
     (forall c, In c calls -> emits c = false) /\
     match ev with
     | SDL_JOYBUTTONUP which _ | SDL_JOYBUTTONDOWN which _ =>
         n = default 0 (index <$> w_devices w !! which)
     | _ => n = 0
     end) /\
  (joystick_event ev = false ->
   forall c, In c (loop_body wid rid s w).2 -> emits c = false).
Proof.
  intros Hev.
  assert (Hwait : exists c0, wait_phase s w
                             = (mkWorker (w_devices w) (w_run w) ev (w_rumble_end w), [c0]) /\
                             emits c0 = false).
  { unfold wait_phase. rewrite Hev. destruct (w_rumble_end w) eqn:Hend.
    - eexists. split; reflexivity.
    - eexists. split; reflexivity. }
  destruct Hwait as (c0 & Hwait & Hc0).
  unfold loop_body. rewrite Hwait. clear Hwait. unfold dispatch. simpl.
  assert (Hone : forall c, In c [c0] -> emits c = false)
    by (intros c [<-|[]]; exact Hc0).
  destruct ev as [j|j|which b|which b|which|which| |type]; simpl; split;
    try discriminate; intros _.
  - exists [c0], 0. auto.
  - exists [c0], 0. auto.
  - unfold map_subscript. destruct (w_devices w !! which) as [d|]; simpl;
      eexists [c0], _; auto.
  - unfold map_subscript. destruct (w_devices w !! which) as [d|]; simpl;
      eexists [c0], _; auto.
  - exists [c0], 0. auto.
  - unfold RemoveDevice. destruct (w_devices w !! which) as [d|]; simpl.
    + eexists [c0; _], 0. split; [reflexivity|]. split; [|reflexivity].
      intros c [<-|[<-|[]]]; [exact Hc0|]. destruct (is_controller d); reflexivity.
    + exists [c0], 0. auto.
  - exact Hone.
  - destruct (type =? wid); simpl.
    + intros c [<-|[<-|[]]]; [exact Hc0|reflexivity].
    + destruct (type =? rid); simpl; [|exact Hone].
      destruct (rumble_data s) as [[low high] duration]. simpl.
      intros c [<-|Hin]; [exact Hc0|]. unfold rumble_all in Hin.
      apply in_map_iff in Hin. destruct Hin as (d & <- & _). reflexivity.
Qed.

Lemma delivered_event_forwarded_witness :
  exists calls n,
    (loop_body work_id rumble_id (delivers (SDL_JOYDEVICEADDED 3) 0)
               (mkWorker {[5 := stick5]} true (SDL_other 0) None)).2
    = calls ++ [emit_event (SDL_JOYDEVICEADDED 3) n].
Proof.
  destruct (delivered_event_forwarded work_id rumble_id (delivers (SDL_JOYDEVICEADDED 3) 0)
              (mkWorker {[5 := stick5]} true (SDL_other 0) None) (SDL_JOYDEVICEADDED 3))
    as [Hjoy _]; [reflexivity|].
  destruct Hjoy as (calls & n & Hcalls & _); [reflexivity|].
  exists calls, n. exact Hcalls.
Defined.

(** The loop does not run the discretizers: an iteration that is delivered
    an axis or hat event, the shutdown event, a rumble request or another
    event that is not the work event leaves the registry, the stored
    samples with it, as it is. *)
Theorem registry_untouched (wid rid : Z) (s : surroundings) (w : worker) (ev : SDL_Event) :
  waited s = Some ev ->
  match ev with
  | SDL_JOYAXISMOTION _ | SDL_JOYHATMOTION _ | SDL_QUIT => True
  | SDL_other type => type <> wid
  | _ => False
  end ->
  w_devices (loop_body wid rid s w).1 = w_devices w.
Proof.
  intros Hev Hkind. rewrite loop_body_worker.
  assert (Hwait : (wait_phase s w).1 = mkWorker (w_devices w) (w_run w) ev (w_rumble_end w)).
  { unfold wait_phase. rewrite Hev. destruct (w_rumble_end w); reflexivity. }
  rewrite Hwait. unfold dispatch. simpl.
  destruct ev as [j|j|which b|which b|which|which| |type]; simpl; try contradiction;
    try reflexivity.
  apply Z.eqb_neq in Hkind. rewrite Hkind.
  destruct (type =? rid); simpl; [|reflexivity].
  destruct (rumble_data s) as [[low high] duration]. reflexivity.
Qed.

Lemma registry_untouched_witness :
  w_devices (loop_body work_id rumble_id (delivers (SDL_JOYAXISMOTION (mkJAxis 5 0 20000)) 0)
                       (mkWorker {[5 := stick5]} true (SDL_other 0) None)).1
  = {[5 := stick5]}.
Proof.
  rewrite (registry_untouched work_id rumble_id
             (delivers (SDL_JOYAXISMOTION (mkJAxis 5 0 20000)) 0)
             (mkWorker {[5 := stick5]} true (SDL_other 0) None)
             (SDL_JOYAXISMOTION (mkJAxis 5 0 20000))).
  - reflexivity.
  - reflexivity.
  - exact I.
Defined.

(** When a wait returns 0, with or without a deadline, the [switch] is
    entered with the event of the iteration before: a joystick event is
    handed on a second time. *)
Theorem undelivered_wait_repeats_event (wid rid : Z) (s : surroundings) (w : worker) :
  waited s = None ->
  joystick_event (w_e w) = true ->
  exists calls n,
    (loop_body wid rid s w).2 = calls ++ [emit_event (w_e w) n] /\
    w_e (loop_body wid rid s w).1 = w_e w.
Proof.
  intros Hnone Hjoy.
  assert (He : w_e (wait_phase s w).1 = w_e w) by (rewrite wait_phase_e, Hnone; reflexivity).
  assert (Hlast : forall w1, joystick_event (w_e w1) = true ->
                             exists calls n,
                               (dispatch wid rid s w1).2 = calls ++ [emit_event (w_e w1) n]).
  { intros w1 Hj. unfold dispatch.
    destruct (w_e w1) as [j|j|which b|which b|which|which| |type]; simpl; try discriminate.
    - exists [], 0. reflexivity.
    - exists [], 0. reflexivity.
    - destruct (map_subscript (w_devices w1) which). eexists [], _. reflexivity.
    - destruct (map_subscript (w_devices w1) which). eexists [], _. reflexivity.
    - exists [], 0. reflexivity.
    - destruct (RemoveDevice (w_devices w1) which). eexists _, 0. reflexivity. }
  destruct (Hlast (wait_phase s w).1) as (calls & n & Hcalls);
    [rewrite He; exact Hjoy|].
  exists ((wait_phase s w).2 ++ calls), n. split.
  - unfold loop_body. destruct (wait_phase s w) as [w1 calls1]. simpl in *.
    destruct (dispatch wid rid s w1) as [w2 calls2]. simpl in *.
    rewrite Hcalls, He, app_assoc. reflexivity.
  - rewrite loop_body_worker, dispatch_keeps_e. exact He.
Qed.

Lemma undelivered_wait_repeats_event_witness :
  exists calls n,
    (loop_body work_id rumble_id (times_out 50)
               (mkWorker {[7 := pad7]} true (SDL_JOYBUTTONDOWN 7 0) (Some 50))).2
    = calls ++ [emit_event (SDL_JOYBUTTONDOWN 7 0) n].
Proof.
  destruct (undelivered_wait_repeats_event work_id rumble_id (times_out 50)
              (mkWorker {[7 := pad7]} true (SDL_JOYBUTTONDOWN 7 0) (Some 50)))
    as (calls & n & Hcalls & _); [reflexivity|reflexivity|].
  exists calls, n. exact Hcalls.
Defined.

Lemma rumble_all_In (devices : devices_t) (low high duration : Z) (c : call) :
  In c (rumble_all devices low high duration) <->
  exists k d, devices !! k = Some d /\
              c = SDL_GameControllerRumble (controller d) low high duration.
Proof.
  unfold rumble_all. rewrite in_map_iff. split.
  - intros ([k d] & <- & Hin). apply begin_end_lookup in Hin. eauto.
  - intros (k & d & Hk & ->). exists (k, d). split; [reflexivity|].
    apply begin_end_lookup, Hk.
Qed.

Lemma dispatch_rumble_request (wid rid : Z) (s : surroundings) (w : worker)
  (low high duration : Z) :
  w_e w = SDL_other rid -> wid <> rid -> rumble_data s = (low, high, duration) ->
  dispatch wid rid s w
  = (mkWorker (w_devices w) (w_run w) (w_e w)
              (Some (to_int (to_Uint32 (SDL_GetTicks s + duration)))),
     rumble_all (w_devices w) low high duration).
Proof.
  intros He Hids Hdata. unfold dispatch. rewrite He.
  apply Z.eqb_neq in Hids. rewrite Z.eqb_sym in Hids.
  rewrite Hids, Z.eqb_refl, Hdata. reflexivity.
Qed.

(** A rumble request starts the rumble with the requested values: one call
    of [SDL_GameControllerRumble] for each entry of the registry, on its
    [controller] handle, which for a plain joystick is null; the registry
    stays as it is and a deadline is pending. *)
Theorem rumble_request_starts_all (wid rid : Z) (s : surroundings) (w : worker)
  (low high duration : Z) :
  w_e w = SDL_other rid -> wid <> rid -> rumble_data s = (low, high, duration) ->
  w_devices (dispatch wid rid s w).1 = w_devices w /\
  w_rumble_end (dispatch wid rid s w).1
  = Some (to_int (to_Uint32 (SDL_GetTicks s + duration))) /\
  length (dispatch wid rid s w).2 = size (w_devices w) /\
  (forall c, In c (dispatch wid rid s w).2 <->
             exists k d, w_devices w !! k = Some d /\
                         c = SDL_GameControllerRumble (controller d) low high duration).
Proof.
  intros He Hids Hdata.
  rewrite (dispatch_rumble_request wid rid s w low high duration He Hids Hdata). simpl.
  split; [reflexivity|]. split; [reflexivity|].
  split; [apply rumble_all_each_device|]. intros c. apply rumble_all_In.
Qed.

Lemma rumble_request_starts_all_witness :
  length (dispatch work_id rumble_id (delivers (SDL_other rumble_id) 1000)
                   (mkWorker {[7 := pad7; 5 := stick5]} true (SDL_other rumble_id) None)).2
  = 2%nat.
Proof.
  destruct (rumble_request_starts_all work_id rumble_id (delivers (SDL_other rumble_id) 1000)
              (mkWorker {[7 := pad7; 5 := stick5]} true (SDL_other rumble_id) None)
              1000 2000 50) as (_ & _ & Hlength & _).
  - reflexivity.
  - vm_compute. discriminate.
  - reflexivity.
  - rewrite Hlength. reflexivity.
Defined.

(** The wait after a rumble request asks for the time that is left: with
    the request taken at tick [t0] for [duration] ms and the wait entered at
    tick [t1], the time-out is [duration] less the ticks elapsed, or 0 when
    that is negative, also when the 32-bit tick counter has wrapped around
    in between; a [duration] of [2^31] ms or more gives the time-out 0. *)
Theorem rumble_wait_time_left (wid rid : Z) (s0 s1 : surroundings) (w : worker)
  (low high duration : Z) :
  w_e w = SDL_other rid -> wid <> rid -> rumble_data s0 = (low, high, duration) ->
  0 <= SDL_GetTicks s0 < 2 ^ 32 -> 0 <= SDL_GetTicks s1 < 2 ^ 32 ->
  0 <= duration < 2 ^ 32 ->
  let elapsed := to_Uint32 (SDL_GetTicks s1 - SDL_GetTicks s0) in
  exists timeout rest,
    (wait_phase s1 (dispatch wid rid s0 w).1).2 = SDL_WaitEventTimeout timeout :: rest /\
    (- 2 ^ 31 <= duration - elapsed < 2 ^ 31 -> timeout = Z.max (duration - elapsed) 0) /\
    (2 ^ 31 <= duration - elapsed -> timeout = 0).
Proof.
  intros He Hids Hdata Ht0 Ht1 Hd elapsed.
  assert (Hend : w_rumble_end (dispatch wid rid s0 w).1
                 = Some (to_int (to_Uint32 (SDL_GetTicks s0 + duration))))
    by (rewrite (dispatch_rumble_request wid rid s0 w low high duration He Hids Hdata);
        reflexivity).
  unfold wait_phase. rewrite Hend.
  set (timeout := Z.max (to_int (to_Uint32
                   (to_int (to_Uint32 (SDL_GetTicks s0 + duration)) - SDL_GetTicks s1))) 0).
  assert (Hcalls : exists rest,
             (match waited s1 with
              | Some ev =>
                  (mkWorker (w_devices (dispatch wid rid s0 w).1)
                            (w_run (dispatch wid rid s0 w).1) ev
                            (Some (to_int (to_Uint32 (SDL_GetTicks s0 + duration)))),
                   [SDL_WaitEventTimeout timeout])
              | None =>
                  (mkWorker (w_devices (dispatch wid rid s0 w).1)
                            (w_run (dispatch wid rid s0 w).1)
                            (w_e (dispatch wid rid s0 w).1) None,
                   SDL_WaitEventTimeout timeout
                     :: rumble_all (w_devices (dispatch wid rid s0 w).1) 0 0 0)
              end).2 = SDL_WaitEventTimeout timeout :: rest).
  { destruct (waited s1); eexists; reflexivity. }
  destruct Hcalls as (rest & Hcalls). exists timeout, rest.
  split; [exact Hcalls|].
  unfold timeout, elapsed, to_int, to_Uint32.
  change (2 ^ 31) with 2147483648. change (2 ^ 32) with 4294967296.
  change (2 ^ 31) with 2147483648 in Ht0, Ht1, Hd.
  change (2 ^ 32) with 4294967296 in Ht0, Ht1, Hd.
  split; intros Hrange; Z.div_mod_to_equations; lia.
Qed.

Lemma rumble_wait_time_left_witness :
  exists timeout rest,
    (wait_phase (times_out 4)
       (dispatch work_id rumble_id (delivers (SDL_other rumble_id) 4294967290)
                 (mkWorker {[7 := pad7]} true (SDL_other rumble_id) None)).1).2
    = SDL_WaitEventTimeout timeout :: rest /\ timeout = 40.
Proof.
  destruct (rumble_wait_time_left work_id rumble_id
              (delivers (SDL_other rumble_id) 4294967290) (times_out 4)
              (mkWorker {[7 := pad7]} true (SDL_other rumble_id) None) 1000 2000 50)
    as (timeout & rest & Hcalls & Hleft & _).
  - reflexivity.
  - vm_compute. discriminate.
  - reflexivity.
  - simpl. lia.
  - simpl. lia.
  - lia.
  - exists timeout, rest. split; [exact Hcalls|].
    rewrite Hleft; [reflexivity|]. vm_compute. split; [discriminate|reflexivity].
Defined.

(** * getXInputControllers *)

Lemma begin_end_keys_increase (devices : devices_t) :
  StronglySorted (fun x y : Z * SDLInputDevice => x.1 < y.1) (begin_end devices).
Proof.
  assert (Htrans : Transitive key_le) by (intros x y z; unfold key_le; lia).
  assert (Htotal : Total key_le) by (intros x y; unfold key_le; lia).
  pose proof (@StronglySorted_merge_sort _ key_le _ Htrans Htotal (map_to_list devices))
    as Hsorted.
  assert (Hnodup : NoDup (begin_end devices).*1).
  { unfold begin_end.
    rewrite (merge_sort_Permutation key_le (map_to_list devices)).
    apply NoDup_fst_map_to_list. }
  fold (begin_end devices) in Hsorted. revert Hsorted Hnodup.
  induction (begin_end devices) as [|x l IH]; intros Hsorted Hnodup; [constructor|].
  apply StronglySorted_inv in Hsorted. destruct Hsorted as [Hl Hx].
  rewrite fmap_cons in Hnodup. apply NoDup_cons in Hnodup. destruct Hnodup as [Hnotin Hnodup].
  constructor; [apply IH; assumption|].
  rewrite Forall_forall in Hx. rewrite Forall_forall. intros y Hy. specialize (Hx y Hy).
  assert (Hne : x.1 <> y.1).
  { intros E. apply Hnotin. rewrite E. apply list_elem_of_fmap. exists y. auto. }
  unfold key_le in Hx. lia.
Qed.

Lemma getXInputControllers_from_In (name : Z -> string) (ds : list (Z * SDLInputDevice))
  (k : Z) (n : string) :
  In (k, n) (getXInputControllers_from name ds) <->
  exists d, In (k, d) ds /\ is_controller d = true /\ n = name (joystick d).
Proof.
  induction ds as [|[k0 d0] ds IH]; simpl.
  - split; [intros []|intros (d & [] & _)].
  - destruct (is_controller d0) eqn:Hc; simpl.
    + rewrite IH. split.
      * intros [E|(d & Hin & Hd)]; [injection E as <- <-; eauto|eauto].
      * intros (d & [E|Hin] & Hd & Hn); [injection E as <- <-; left; congruence|].
        right. eauto.
    + rewrite IH. split.
      * intros (d & Hin & Hd). eauto.
      * intros (d & [E|Hin] & Hd & Hn); [injection E as <- <-; congruence|eauto].
Qed.

(** [getXInputControllers] lists the game controllers of the registry and
    nothing else: a pair of an instance id and a name is in the list
    exactly when the registry has a game controller under that id, and the
    name is the one SDL gives for its joystick handle. *)
Theorem getXInputControllers_lists_controllers (name : Z -> string)
  (devices : devices_t) (k : Z) (n : string) :
  In (k, n) (getXInputControllers name devices) <->
  exists d, devices !! k = Some d /\ is_controller d = true /\ n = name (joystick d).
Proof.
  unfold getXInputControllers. rewrite getXInputControllers_from_In.
  split; intros (d & Hd & Hrest); exists d; (split; [apply begin_end_lookup, Hd|exact Hrest]).
Qed.

(** The list of [getXInputControllers] is by ascending instance id, so
    that no id is in it twice; it is no longer than the registry, and
    empty for a registry without game controllers. *)
Theorem getXInputControllers_ascending (name : Z -> string) (devices : devices_t) :
  StronglySorted Z.lt (getXInputControllers name devices).*1 /\
  NoDup (getXInputControllers name devices).*1 /\
  (length (getXInputControllers name devices) <= size devices)%nat /\
  ((forall k d, devices !! k = Some d -> is_controller d = false) ->
   getXInputControllers name devices = []).
Proof.
  assert (Hsorted : StronglySorted Z.lt (getXInputControllers name devices).*1).
  { unfold getXInputControllers. pose proof (begin_end_keys_increase devices) as Hkeys.
    induction (begin_end devices) as [|[k0 d0] ds IH]; simpl; [constructor|].
    apply StronglySorted_inv in Hkeys. destruct Hkeys as [Hds Hk0].
    destruct (is_controller d0); simpl; [|apply IH, Hds].
    constructor; [apply IH, Hds|].
    rewrite Forall_forall in Hk0. rewrite Forall_forall. intros k Hk.
    apply list_elem_of_fmap in Hk. destruct Hk as ([k' n] & -> & Hin).
    apply list_elem_of_In, getXInputControllers_from_In in Hin.
    destruct Hin as (d & Hin & _). apply list_elem_of_In in Hin.
    apply (Hk0 _ Hin). }
  split; [exact Hsorted|]. split; [|split].
  - revert Hsorted. generalize (getXInputControllers name devices).*1. intros l Hl.
    induction Hl as [|x l Hl IH Hx]; constructor; [|exact IH].
    intros Hin. rewrite Forall_forall in Hx. specialize (Hx x Hin). lia.
  - rewrite <- begin_end_length. unfold getXInputControllers.
    induction (begin_end devices) as [|[k0 d0] ds IH]; simpl; [lia|].
    destruct (is_controller d0); simpl; lia.
  - intros Hnone. destruct (getXInputControllers name devices) as [|[k n] l] eqn:E;
      [reflexivity|].
    assert (Hin : In (k, n) (getXInputControllers name devices))
      by (rewrite E; left; reflexivity).
    unfold getXInputControllers in Hin. apply getXInputControllers_from_In in Hin.
    destruct Hin as (d & Hd & Hc & _). apply begin_end_lookup in Hd.
    rewrite (Hnone k d Hd) in Hc. discriminate.
Qed.

Example getXInputControllers_pad_and_stick :
  getXInputControllers handle_name {[7 := pad7; 5 := stick5; 2 := set_index pad7 1]}
  = [(2, "pad"%string); (7, "pad"%string)].
Proof. vm_compute. reflexivity. Qed.

Lemma getXInputControllers_ascending_witness :
  getXInputControllers handle_name {[5 := stick5]} = [].
Proof.
  destruct (getXInputControllers_ascending handle_name {[5 := stick5]})
    as (_ & _ & _ & Hnone).
  apply Hnone. intros k d Hk. apply lookup_singleton_Some in Hk.
  destruct Hk as [_ <-]. reflexivity.
Defined.

(** * Leaving the loop *)

(** The loop is left for the shutdown event only: as long as no wait
    delivers [SDL_QUIT], [run] is still in its loop and [SDL_Quit()] has
    not been called. *)
Theorem run_leaves_only_on_quit (wid rid : Z) (devices : devices_t)
  (ss : list surroundings) :
  (forall s, In s ss -> waited s <> Some SDL_QUIT) ->
  w_run (run wid rid devices ss).1 = true /\ ~ In SDL_Quit (run wid rid devices ss).2.
Proof.
  intros Hnone.
  destruct (while_run_invariant wid rid
              (fun w => w_run w = true /\ w_e w <> SDL_QUIT) (fun c => c <> SDL_Quit) ss)
    with (w := mkWorker devices true (SDL_other 0) None) as [[Hrun _] Hcalls].
  - intros s w Hs [Hrun He].
    assert (He1 : w_e (wait_phase s w).1 <> SDL_QUIT).
    { rewrite wait_phase_e. destruct (waited s) as [ev|] eqn:Hev; simpl; [|exact He].
      intros ->. apply (Hnone s Hs). exact Hev. }
    assert (Hrun1 : w_run (wait_phase s w).1 = true).
    { unfold wait_phase. destruct (w_rumble_end w), (waited s); exact Hrun. }
    split; [split|].
    + rewrite loop_body_worker. revert He1 Hrun1.
      generalize (wait_phase s w).1. intros w1 He1 Hrun1.
      unfold dispatch. destruct (w_e w1) eqn:E; simpl; try exact Hrun1.
      * destruct (map_subscript (w_devices w1) which); exact Hrun1.
      * destruct (map_subscript (w_devices w1) which); exact Hrun1.
      * destruct (RemoveDevice (w_devices w1) which); exact Hrun1.
      * contradiction.
      * destruct (type =? wid); simpl; [exact Hrun1|].
        destruct (type =? rid); simpl; [|exact Hrun1].
        destruct (rumble_data s) as [[low high] duration]. exact Hrun1.
    + rewrite loop_body_worker, dispatch_keeps_e. exact He1.
    + intros c Hc ->. exact (loop_body_no_Quit wid rid s w Hc).
  - split; [reflexivity|discriminate].
  - unfold run.
    destruct (while_run wid rid ss (mkWorker devices true (SDL_other 0) None))
      as [w calls]. simpl in *. rewrite Hrun. split; [reflexivity|].
    rewrite app_nil_r. intros [Hc|Hin]; [discriminate|]. exact (Hcalls _ Hin eq_refl).
Qed.

Lemma run_leaves_only_on_quit_witness :
  w_run (run work_id rumble_id {[7 := pad7]}
             [delivers (SDL_other rumble_id) 1000; times_out 1050]).1 = true.
Proof.
  apply (run_leaves_only_on_quit work_id rumble_id {[7 := pad7]}
           [delivers (SDL_other rumble_id) 1000; times_out 1050]).
  intros s Hs. simpl in Hs. destruct Hs as [<-|[<-|[]]]; simpl; discriminate.
Defined.
